(** * Supplier ranking service: the API views of [ranking_engine/api_views.py]

    A shallow embedding of the five REST views (feedback, ranking, manual
    training, Q-value inspection, Q-table export) together with the Python
    runtime pieces they rely on (truthiness, [float()], [int()], [min],
    [max], stable [list.sort]) and the properties of the specification that
    concern them. *)

From Stdlib Require Import ZArith QArith Qabs Qreduction Lqa String Ascii List Bool
  Lia Permutation Sorted.
From stdpp Require Import base option list gmap strings.

Import ListNotations.
Open Scope Z_scope.

(** ** Python floats

    A finite double is represented by the rational number it denotes, kept in
    lowest terms so that equal numbers are equal terms.  Rounding to 53 bits
    is not modelled; overflow to an infinity, the infinities and NaN are.
    The properties of the scores are therefore stated as bounds and as
    values at which the clamp saturates, which rounding preserves. *)

Module PyFloat.

Inductive pyfloat : Type :=
| Fin (q : Q)
| PInf
| NInf
| NaN.

(** Magnitudes from [2^1024 - 2^970] on round to an infinity. *)
Definition overflow_threshold : Z := 2 ^ 1024 - 2 ^ 970.

Definition Qltb (a b : Q) : bool := negb (Qle_bool b a).

Definition norm (q : Q) : pyfloat :=
  if Qle_bool (inject_Z overflow_threshold) (Qabs q)
  then (if Qle_bool 0 q then PInf else NInf)
  else Fin (Qred q).

Definition of_Z (z : Z) : pyfloat := norm (inject_Z z).

Definition fneg (a : pyfloat) : pyfloat :=
  match a with
  | Fin q => Fin (Qred (- q))
  | PInf => NInf
  | NInf => PInf
  | NaN => NaN
  end.

Definition fadd (a b : pyfloat) : pyfloat :=
  match a, b with
  | NaN, _ | _, NaN => NaN
  | Fin x, Fin y => norm (x + y)
  | PInf, NInf | NInf, PInf => NaN
  | PInf, _ | _, PInf => PInf
  | NInf, _ | _, NInf => NInf
  end.

Definition fsub (a b : pyfloat) : pyfloat := fadd a (fneg b).

(** The sign of a float: [Some true] positive, [Some false] negative,
    [None] zero or NaN. *)
Definition fsign (a : pyfloat) : option bool :=
  match a with
  | Fin q => if Qltb 0 q then Some true else if Qltb q 0 then Some false else None
  | PInf => Some true
  | NInf => Some false
  | NaN => None
  end.

Definition fmul (a b : pyfloat) : pyfloat :=
  match a, b with
  | NaN, _ | _, NaN => NaN
  | Fin x, Fin y => norm (x * y)
  | _, _ =>
      match fsign a, fsign b with
      | Some s, Some t => if Bool.eqb s t then PInf else NInf
      | _, _ => NaN
      end
  end.

(** [a < b]; every comparison with NaN is false. *)
Definition flt (a b : pyfloat) : bool :=
  match a, b with
  | NaN, _ | _, NaN => false
  | Fin x, Fin y => Qltb x y
  | NInf, NInf => false
  | NInf, _ => true
  | _, PInf => match a with PInf => false | _ => true end
  | _, _ => false
  end.

(** [a >= b] *)
Definition fge (a b : pyfloat) : bool :=
  match a, b with
  | NaN, _ | _, NaN => false
  | _, _ => negb (flt a b)
  end.

(** Python's two-argument [max(a, b)] keeps [a] unless [b > a], and
    [min(a, b)] keeps [a] unless [b < a]. *)
Definition py_max (a b : pyfloat) : pyfloat := if flt a b then b else a.
Definition py_min (a b : pyfloat) : pyfloat := if flt b a then b else a.

Definition is_nan (a : pyfloat) : bool :=
  match a with NaN => true | _ => false end.

(** [bool(x)] of a float: only zero is falsy. *)
Definition nonzero (a : pyfloat) : bool :=
  match a with
  | Fin q => negb (Qeq_bool q 0)
  | _ => true
  end.

End PyFloat.
Export PyFloat.

(** ** Python exceptions and results *)

Inductive exn : Type :=
| TypeError
| ValueError
| OverflowError
| AttributeError
| NegativeIndexing          (* a queryset sliced with a negative bound *)
| NoCandidateActions
| ServiceError (what : string)
| DatabaseError             (* django.db.DatabaseError and its subclasses *)
| TransactionManagementError. (* a query in a transaction marked for rollback *)

(** [isinstance(e, django.db.DatabaseError)] *)
Definition is_database_error (e : exn) : bool :=
  match e with
  | DatabaseError | TransactionManagementError => true
  | _ => false
  end.

Inductive result (A : Type) : Type :=
| Ok (a : A)
| Raise (e : exn).
Arguments Ok {A} a.
Arguments Raise {A} e.

Definition rbind {A B} (k : A -> result B) (r : result A) : result B :=
  match r with
  | Ok a => k a
  | Raise e => Raise e
  end.

#[global] Instance result_ret : MRet result := fun A a => Ok a.
#[global] Instance result_bind : MBind result := fun A B k r => rbind k r.

(** ** Python's [float(str)] and [int(str)]

    The grammar of the numeric literals accepted by the two constructors on
    ASCII strings: surrounding whitespace, a sign, digit groups separated by
    single underscores, a fraction, an exponent, and for [float] the
    case-insensitive words [inf], [infinity] and [nan]. *)

Module PyParse.

Definition is_space (c : ascii) : bool :=
  let n := nat_of_ascii c in
  ((9 <=? n) && (n <=? 13) || (28 <=? n) && (n <=? 32))%nat.

Definition is_digit (c : ascii) : bool :=
  let n := nat_of_ascii c in ((48 <=? n) && (n <=? 57))%nat.

Definition digit_val (c : ascii) : Z := Z.of_nat (nat_of_ascii c) - 48.

Definition lower (c : ascii) : ascii :=
  let n := nat_of_ascii c in
  if ((65 <=? n) && (n <=? 90))%nat then ascii_of_nat (n + 32) else c.

Fixpoint lstrip (l : list ascii) : list ascii :=
  match l with
  | c :: l' => if is_space c then lstrip l' else l
  | [] => []
  end.

Definition strip (l : list ascii) : list ascii := rev (lstrip (rev (lstrip l))).

(** An optional sign: [(negative, rest)]. *)
Definition sign (l : list ascii) : bool * list ascii :=
  match l with
  | "+"%char :: l' => (false, l')
  | "-"%char :: l' => (true, l')
  | _ => (false, l)
  end.

(** Digits with single underscores between them: the value read so far, the
    number of digits, and what is left. *)
Fixpoint digits_acc (acc : Z) (n : nat) (l : list ascii) : Z * nat * list ascii :=
  match l with
  | c :: l' =>
      if is_digit c then digits_acc (10 * acc + digit_val c) (S n) l'
      else if Ascii.eqb c "_" then
        match l' with
        | c2 :: _ => if is_digit c2 then digits_acc acc n l' else (acc, n, l)
        | [] => (acc, n, l)
        end
      else (acc, n, l)
  | [] => (acc, n, [])
  end.

Definition digit_part (l : list ascii) : option (Z * nat * list ascii) :=
  match l with
  | c :: _ => if is_digit c then Some (digits_acc 0 0 l) else None
  | [] => None
  end.

Definition int_of_string (s : string) : option Z :=
  let '(neg, l) := sign (strip (list_ascii_of_string s)) in
  match digit_part l with
  | Some (v, _, []) => Some (if neg then - v else v)
  | _ => None
  end.

(** The exponent part, if any, must use up the rest of the literal. *)
Definition exponent (l : list ascii) : option Z :=
  match l with
  | [] => Some 0
  | c :: l' =>
      if Ascii.eqb (lower c) "e" then
        let '(neg, l'') := sign l' in
        match digit_part l'' with
        | Some (v, _, []) => Some (if neg then - v else v)
        | _ => None
        end
      else None
  end.

(** [(ip + fp / 10^fd) * 10^e] *)
Definition decimal (ip fp : Z) (fd : nat) (e : Z) : Q :=
  let m := ip * 10 ^ Z.of_nat fd + fp in
  let d := 10 ^ Z.of_nat fd in
  if 0 <=? e then Qmake (m * 10 ^ e) (Z.to_pos d)
  else Qmake m (Z.to_pos (d * 10 ^ (- e))).

Definition number (l : list ascii) : option Q :=
  match digit_part l with
  | Some (ip, _, "."%char :: l') =>
      match digit_part l' with
      | Some (fp, fd, l'') => e ← exponent l''; Some (decimal ip fp fd e)
      | None => e ← exponent l'; Some (decimal ip 0 0 e)
      end
  | Some (ip, _, l') => e ← exponent l'; Some (decimal ip 0 0 e)
  | None =>
      match l with
      | "."%char :: l' =>
          match digit_part l' with
          | Some (fp, fd, l'') => e ← exponent l''; Some (decimal 0 fp fd e)
          | None => None
          end
      | _ => None
      end
  end.

Definition float_of_string (s : string) : option pyfloat :=
  let '(neg, l) := sign (strip (list_ascii_of_string s)) in
  let w := string_of_list_ascii (map lower l) in
  if String.eqb w "inf" || String.eqb w "infinity"
  then Some (if neg then NInf else PInf)
  else if String.eqb w "nan" then Some NaN
  else q ← number l; Some (norm (if neg then - q else q)).

End PyParse.
Export PyParse.

(** ** Values carried by a request or a supplier record *)

#[warnings="-register-all"] Inductive value : Type :=
| VNone
| VBool (b : bool)
| VInt (z : Z)
| VFloat (f : pyfloat)
| VStr (s : string)
| VList (l : list value)
| VDict (d : list (string * value)).

(** [bool(v)] *)
Definition truthy (v : value) : bool :=
  match v with
  | VNone => false
  | VBool b => b
  | VInt z => negb (z =? 0)
  | VFloat f => nonzero f
  | VStr s => negb (String.eqb s "")
  | VList l => match l with [] => false | _ => true end
  | VDict d => match d with [] => false | _ => true end
  end.

(** [all(vs)] *)
Definition py_all (vs : list value) : bool := forallb truthy vs.

(** [a or b] *)
Definition py_or (a b : value) : value := if truthy a then a else b.

(** [float(v)] *)
Definition py_float (v : value) : result pyfloat :=
  match v with
  | VNone | VList _ | VDict _ => Raise TypeError
  | VBool b => Ok (Fin (if b then 1 else 0))
  | VInt z =>
      match of_Z z with
      | Fin q => Ok (Fin q)
      | _ => Raise OverflowError
      end
  | VFloat f => Ok f
  | VStr s =>
      match float_of_string s with
      | Some f => Ok f
      | None => Raise ValueError
      end
  end.

(** [int(v)]: floats are truncated towards zero. *)
Definition py_int (v : value) : result Z :=
  match v with
  | VNone | VList _ | VDict _ => Raise TypeError
  | VBool b => Ok (if b then 1 else 0)
  | VInt z => Ok z
  | VFloat (Fin q) => Ok (Z.quot (Qnum q) (Zpos (Qden q)))
  | VFloat NaN => Raise ValueError
  | VFloat _ => Raise OverflowError
  | VStr s =>
      match int_of_string s with
      | Some z => Ok z
      | None => Raise ValueError
      end
  end.

(** [d.get(k)] on a dictionary given as its items, [None] when [d] is not
    a dictionary (the attribute lookup then raises). *)
Fixpoint assoc (k : string) (d : list (string * value)) : option value :=
  match d with
  | [] => None
  | (k', v) :: d' => if String.eqb k k' then Some v else assoc k d'
  end.

Definition dict_get (v : value) (k : string) : result (option value) :=
  match v with
  | VDict d => Ok (assoc k d)
  | _ => Raise AttributeError
  end.

(** [s.lower()] on a string of ASCII characters: the letters A-Z are
    lowered and every other byte is kept.  Python also lowers the letters
    outside ASCII, which this lowering of bytes does not follow. *)
Definition str_lower (s : string) : string :=
  string_of_list_ascii (map lower (list_ascii_of_string s)).

(** The strings on which [str_lower] is [s.lower()]: every character is
    below 128. *)
Definition is_ascii (s : string) : bool :=
  forallb (fun c => (nat_of_ascii c <? 128)%nat) (list_ascii_of_string s).

(** [s.startswith(p)] is [String.prefix p s]; [sub in s]: *)
Fixpoint str_contains (sub s : string) : bool :=
  String.prefix sub s ||
  match s with
  | EmptyString => false
  | String _ s' => str_contains sub s'
  end.

(** ** Data model *)

(** The five scores derived from a feedback or computed by the metrics
    service. *)
Record Metrics : Type := {
  quality_score : pyfloat;
  delivery_score : pyfloat;
  price_score : pyfloat;
  service_score : pyfloat;
  overall_score : pyfloat;
}.

(** Modelled from the spec: the declaration of [api.models.QLearningState] is
    not part of the sources; a state is an immutable named value. *)
Record QLearningState : Type := { state_name : string }.

(** Modelled from the spec: the declaration of [api.models.QLearningAction]
    is not part of the sources; an action is an immutable named value. *)
Record QLearningAction : Type := { action_name : string }.

(** Modelled from the spec: the declaration of [api.models.QTableEntry] is
    not part of the sources; an entry holds the learned value and the update
    count of one (state, action) pair. *)
Record QTableEntry : Type := { q_value : Q; update_count : nat }.

(** The table of entries: identity is the pair of names, at most one entry
    per pair. *)
Abbreviation QTable := (gmap (string * string) QTableEntry).

Definition qkey (s : QLearningState) (a : QLearningAction) : string * string :=
  (state_name s, action_name a).

(** The error payloads of the views, one constructor per message. *)
Inductive api_error : Type :=
| RequiredFields                    (* supplier_id, product_id, and quality_rating are required fields *)
| SupplierNotFound (supplier_id : value) (* Supplier with ID ... not found *)
| NoSuitableAction                  (* No suitable action found for feedback *)
| ProductIdRequired                 (* product_id is required *)
| SupplierIdRequired                (* supplier_id is required *)
| RankingFailed (e : exn)           (* Failed to get supplier rankings: ... *)
| TrainingFailed (e : exn)          (* Training failed: ... *)
| QValuesFailed (e : exn)           (* Failed to retrieve Q-values: ... *)
| QTableFailed (e : exn).           (* Failed to retrieve Q-table: ... *)

Inductive Response (B : Type) : Type :=
| Success (body : B)                          (* 200 with a payload *)
| Message (status : Z) (message : string)     (* {"message": ...} *)
| Failure (status : Z) (error : api_error).   (* {"error": ...} *)
Arguments Success {B} body.
Arguments Message {B} status message.
Arguments Failure {B} status error.

Definition HTTP_200_OK : Z := 200.
Definition HTTP_400_BAD_REQUEST : Z := 400.
Definition HTTP_404_NOT_FOUND : Z := 404.
Definition HTTP_500_INTERNAL_SERVER_ERROR : Z := 500.

(** [request.data.get(k)] and [request.data.get(k, default)] *)
Definition data_get (data : gmap string value) (k : string) (dflt : value) : value :=
  default dflt (data !! k).

(** A display name: a value found in the record, or the formatted
    [Unknown Supplier {supplier_id}]. *)
Inductive name_value : Type :=
| Name (v : value)
| UnknownSupplier (supplier_id : value).

(** [supplier.get('company_name', supplier.get('name',
      supplier.get('user', {}).get('name', f"Unknown Supplier {supplier_id}")))];
    the defaults are evaluated before the lookups that use them. *)
Definition company_name_of (supplier supplier_id : value) : result name_value :=
  u ← dict_get supplier "user";
  n3 ← match u with
       | Some uv => r ← dict_get uv "name";
                    Ok (from_option Name (UnknownSupplier supplier_id) r)
       | None => Ok (UnknownSupplier supplier_id)
       end;
  n2 ← dict_get supplier "name";
  n1 ← dict_get supplier "company_name";
  Ok (from_option Name (from_option Name n3 n2) n1).

(** ** FeedbackView *)

Definition clamp_1_10 (x : pyfloat) : pyfloat :=
  py_min (py_max x (Fin 1)) (Fin 10).

(** Lines 59-73: the metrics built from a feedback. *)
Definition feedback_metrics (quality_rating delivery_time_days issues : value)
  : result Metrics :=
  q ← py_float quality_rating;
  d ← py_float (py_or delivery_time_days (VInt 1));
  i ← py_float issues;
  let quality := clamp_1_10 (fmul q (Fin 10)) in
  let delivery := clamp_1_10 (fsub (Fin 10) (py_min d (Fin 10))) in
  let price := Fin 7 in
  let service := clamp_1_10 (fsub (Fin 10) (fmul i (Fin 2))) in
  let quarter := Fin (1 # 4) in
  Ok {| quality_score := quality;
        delivery_score := delivery;
        price_score := price;
        service_score := service;
        overall_score :=
          fadd (fadd (fadd (fmul quality quarter) (fmul delivery quarter))
                     (fmul price quarter))
               (fmul service quarter) |}.

(** [a.name.startswith("RANK_TIER_")] *)
Definition is_rank_tier (a : QLearningAction) : bool :=
  String.prefix "RANK_TIER_" (action_name a).

(** Lines 91-95: the first action whose name starts with [RANK_TIER_]. *)
Definition rank_tier_action (actions : list QLearningAction) : option QLearningAction :=
  List.find is_rank_tier actions.

Record FeedbackBody : Type := {
  fb_q_value : Q;
  fb_state : string;
  fb_action : string;
  fb_supplier_id : value;
  fb_company_name : name_value;
  fb_product_id : value;
  fb_city : value;
  fb_metrics : Metrics;
}.

Module FeedbackView.
Section post.
(** The collaborators of the view: the supplier directory, the state
    mapper, the environment and the agent's learning step.  Only the
    learning step writes the Q-table. *)
Variable get_supplier : value -> result value.
Variable get_state_from_metrics : Metrics -> result QLearningState.
Variable get_actions : QLearningState -> result (list QLearningAction).
Variable get_reward : value -> QLearningState -> QLearningAction -> result Q.
Variable next_state : value -> QLearningAction -> result QLearningState.
Variable learn : QLearningState -> QLearningAction -> Q -> QLearningState ->
                 QTable -> result Q * QTable.

(** Lines 103-129: the learning update for the chosen action and the
    response that reports it. *)
Definition update_q_value (supplier supplier_id product_id city : value)
    (metrics : Metrics) (state : QLearningState) (action : QLearningAction)
    (qt : QTable) : result (Response FeedbackBody) * QTable :=
  match (reward ← get_reward supplier_id state action;
         next ← next_state supplier_id action;
         Ok (reward, next)) with
  | Raise e => (Raise e, qt)
  | Ok (reward, next) =>
      let '(learned, qt') := learn state action reward next qt in
      (new_q_value ← learned;
       company_name ← company_name_of supplier supplier_id;
       Ok (Success {| fb_q_value := new_q_value;
                      fb_state := state_name state;
                      fb_action := action_name action;
                      fb_supplier_id := supplier_id;
                      fb_company_name := company_name;
                      fb_product_id := product_id;
                      fb_city := city;
                      fb_metrics := metrics |}),
       qt')
  end.

Definition post (data : gmap string value) (qt : QTable)
  : result (Response FeedbackBody) * QTable :=
  let supplier_id := data_get data "supplier_id" VNone in
  let product_id := data_get data "product_id" VNone in
  let city := data_get data "city" VNone in
  let delivery_time_days := data_get data "delivery_time_days" VNone in
  let quality_rating := data_get data "quality_rating" VNone in
  let issues := data_get data "issues" (VInt 0) in
  if negb (py_all [supplier_id; product_id; quality_rating]) then
    (Ok (Failure HTTP_400_BAD_REQUEST RequiredFields), qt)
  else
  match get_supplier supplier_id with
  | Raise e => (Raise e, qt)
  | Ok supplier =>
  if negb (truthy supplier) then
    (Ok (Failure HTTP_404_NOT_FOUND (SupplierNotFound supplier_id)), qt)
  else
  match (metrics ← feedback_metrics quality_rating delivery_time_days issues;
         state ← get_state_from_metrics metrics;
         actions ← get_actions state;
         Ok (metrics, state, actions)) with
  | Raise e => (Raise e, qt)
  | Ok (metrics, state, actions) =>
  match rank_tier_action actions with
  | None => (Ok (Failure HTTP_400_BAD_REQUEST NoSuitableAction), qt)
  | Some action =>
      update_q_value supplier supplier_id product_id city metrics state action qt
  end end end.
End post.
End FeedbackView.

(** ** Sorting

    [l.sort(key=..., reverse=True)] is stable: the result is in descending
    key order and elements with equal keys keep their relative order.  That
    result is unique, and insertion from the right computes it. *)

Section sort.
Context {A : Type} (key : A -> Q).

Fixpoint insert_desc (x : A) (l : list A) : list A :=
  match l with
  | [] => [x]
  | y :: l' => if Qle_bool (key y) (key x) then x :: l else y :: insert_desc x l'
  end.

Definition sort_desc (l : list A) : list A := foldr insert_desc [] l.

(** Descending key order. *)
Definition desc (a b : A) : Prop := (key b <= key a)%Q.

(** The elements whose key equals [v]. *)
Definition with_key (v : Q) (l : list A) : list A :=
  List.filter (fun x => Qeq_bool (key x) v) l.
End sort.

(** ** SupplierRankingView *)

(** What the agent hands back for a ranked supplier. *)
Record Ranking : Type := {
  rk_supplier_id : Z;
  rk_supplier_name : string;
  rk_overall_score : Q;
  rk_state : QLearningState;
}.

Record RankedSupplier : Type := {
  rs_supplier_id : Z;
  rs_company_name : string;
  rs_score : Q;
  rs_state : string;
  rs_best_action : string;
  rs_q_value : Q;
  rs_city : value;
}.

Record RankingBody : Type := {
  rb_product_id : string;
  rb_city : option string;
  rb_suppliers : list RankedSupplier;
  rb_count : nat;
}.

(** One use of the agent's random source: the coin compared with epsilon,
    the candidate picked when exploring, the supplier sampled in training. *)
Record Draw : Type := { coin : Q; pick : nat; sample : nat }.

(** A query parameter is absent or a string; [if p:] holds for a non-empty
    string. *)
Definition param_truthy (p : option string) : bool :=
  match p with
  | Some s => negb (String.eqb s "")
  | None => false
  end.

(** Lines 168-171: [supplier.get("city") or supplier.get("user", {}).get("city")] *)
Definition supplier_city (supplier : value) : result value :=
  c ← dict_get supplier "city";
  if truthy (default VNone c) then Ok (default VNone c)
  else
    u ← dict_get supplier "user";
    match u with
    | Some uv => r ← dict_get uv "city"; Ok (default VNone r)
    | None => Ok VNone
    end.

(** Line 172: whether the city filter skips the supplier. *)
Definition city_excluded (city : option string) (supplier_city : value) : result bool :=
  if param_truthy city && truthy supplier_city then
    match supplier_city with
    | VStr sc => Ok (negb (String.eqb (str_lower sc) (str_lower (default "" city))))
    | _ => Raise AttributeError
    end
  else Ok false.

(** Lines 185-190: the stored value of a pair, 0.0 when there is no entry. *)
Definition stored_q_value (qt : QTable) (s : QLearningState) (a : QLearningAction) : Q :=
  match qt !! qkey s a with
  | Some e => q_value e
  | None => 0
  end.

(** Lines 192-200: the row appended for a ranked supplier. *)
Definition ranked_supplier (qt : QTable) (ranking : Ranking) (action : QLearningAction)
    (supplier_city : value) : RankedSupplier :=
  {| rs_supplier_id := rk_supplier_id ranking;
     rs_company_name := rk_supplier_name ranking;
     rs_score := rk_overall_score ranking;
     rs_state := state_name (rk_state ranking);
     rs_best_action := action_name action;
     rs_q_value := stored_q_value qt (rk_state ranking) action;
     rs_city := supplier_city |}.

Module SupplierRankingView.
Section get.
(** The warehouse connector, the supplier directory and the agent; the
    agent receives the draw of the random source that belongs to the call. *)
Variable get_suppliers_by_product : string -> result (list Z).
Variable get_supplier : value -> result value.
Variable rank_supplier :
  Draw -> Z -> bool -> bool -> QTable ->
  result (QLearningAction * Q * option Ranking).

Variable city : option string.
Variable rng : nat -> Draw.
Variable qt : QTable.

(** Lines 162-200, from the [i]-th candidate on. *)
Fixpoint rank_loop (i : nat) (suppliers : list Z) : result (list RankedSupplier) :=
  match suppliers with
  | [] => Ok []
  | supplier_id :: rest =>
      supplier ← get_supplier (VInt supplier_id);
      if negb (truthy supplier) then rank_loop (S i) rest else
      sc ← supplier_city supplier;
      excluded ← city_excluded city sc;
      if excluded : bool then rank_loop (S i) rest else
      r ← rank_supplier (rng i) supplier_id true false qt;
      let '(action, reward, ranking) := r in
      match ranking with
      | None => rank_loop (S i) rest
      | Some ranking =>
          rows ← rank_loop (S i) rest;
          Ok (ranked_supplier qt ranking action sc :: rows)
      end
  end.

Definition get (product_id : option string) : Response RankingBody :=
  if negb (param_truthy product_id) then
    Failure HTTP_400_BAD_REQUEST ProductIdRequired
  else
    let product_id := default "" product_id in
    match (suppliers ← get_suppliers_by_product product_id;
           match suppliers with
           | [] => Ok (Message HTTP_200_OK
                         ("No suppliers found for product " ++ product_id))
           | _ =>
               ranked ← rank_loop 0 suppliers;
               let ranked := sort_desc rs_score ranked in
               Ok (Success {| rb_product_id := product_id;
                              rb_city := city;
                              rb_suppliers := ranked;
                              rb_count := length ranked |})
           end) with
    | Ok response => response
    | Raise e => Failure HTTP_500_INTERNAL_SERVER_ERROR (RankingFailed e)
    end.
End get.
End SupplierRankingView.

(** ** QValueView *)

Record QValueRow : Type := {
  qv_action : string;
  qv_q_value : Q;
  qv_update_count : nat;
}.

Record QValueBody : Type := {
  qb_state : string;
  qb_supplier_id : string;
  qb_company_name : option name_value;
  qb_q_values : list QValueRow;
  qb_metrics : Metrics;
}.

(** Lines 286-298: the row reported for one action. *)
Definition q_value_row (qt : QTable) (s : QLearningState) (a : QLearningAction) : QValueRow :=
  match qt !! qkey s a with
  | Some e => {| qv_action := action_name a;
                 qv_q_value := q_value e;
                 qv_update_count := update_count e |}
  | None => {| qv_action := action_name a; qv_q_value := 0; qv_update_count := 0 |}
  end.

(** Lines 305-309: the company name when the directory knows the supplier. *)
Definition company_name_if_found (supplier supplier_id : value)
  : result (option name_value) :=
  if truthy supplier
  then n ← company_name_of supplier supplier_id; Ok (Some n)
  else Ok None.

Module QValueView.
Section get.
Variable calculate_combined_metrics : value -> result Metrics.
Variable get_state_from_metrics : Metrics -> result QLearningState.
Variable get_actions : QLearningState -> result (list QLearningAction).
Variable get_supplier : value -> result value.

Definition get (supplier_id : option string) (qt : QTable) : Response QValueBody :=
  if negb (param_truthy supplier_id) then
    Failure HTTP_400_BAD_REQUEST SupplierIdRequired
  else
    let supplier_id := default "" supplier_id in
    match (metrics ← calculate_combined_metrics (VStr supplier_id);
           state ← get_state_from_metrics metrics;
           actions ← get_actions state;
           let q_values := map (q_value_row qt state) actions in
           supplier ← get_supplier (VStr supplier_id);
           company_name ← company_name_if_found supplier (VStr supplier_id);
           Ok (Success {| qb_state := state_name state;
                          qb_supplier_id := supplier_id;
                          qb_company_name := company_name;
                          qb_q_values := q_values;
                          qb_metrics := metrics |})) with
    | Ok response => response
    | Raise e => Failure HTTP_500_INTERNAL_SERVER_ERROR (QValuesFailed e)
    end.
End get.
End QValueView.

(** ** QTableView *)

Record QTableRow : Type := {
  qr_state : string;
  qr_action : string;
  qr_q_value : Q;
  qr_update_count : nat;
}.

Record QTableBody : Type := {
  qtb_entries : list QTableRow;
  qtb_count : nat;
  qtb_total_entries : nat;
}.

(** [QTableEntry.objects.all()] joined with the names of its state and
    action. *)
Definition all_rows (qt : QTable) : list QTableRow :=
  map (fun kv : string * string * QTableEntry =>
         {| qr_state := kv.1.1;
            qr_action := kv.1.2;
            qr_q_value := q_value kv.2;
            qr_update_count := update_count kv.2 |})
      (map_to_list qt).

(** [filter(state__name__contains=...)], [filter(action__name__contains=...)]
    and [filter(q_value__gte=...)], each applied when its parameter is
    truthy.  [contains] is the case-sensitive containment test of the ORM. *)
Definition name_filter (p : option string) (name : string) : bool :=
  if param_truthy p then str_contains (default "" p) name else true.

Definition min_q_filter (m : option pyfloat) (q : Q) : bool :=
  match m with
  | Some x => fge (Fin q) x
  | None => true
  end.

(** Line 339: [int(request.query_params.get('limit', 100))] *)
Definition export_limit (limit : option string) : result Z :=
  match limit with
  | Some s => py_int (VStr s)
  | None => py_int (VInt 100)
  end.

(** Lines 351-352: the threshold, when [min_q_value] is given. *)
Definition export_min_q (min_q_value : option string) : result (option pyfloat) :=
  if param_truthy min_q_value
  then x ← py_float (VStr (default "" min_q_value)); Ok (Some x)
  else Ok None.

Module QTableView.
(** The largest row count a query can ask the database for: [LIMIT] takes a
    signed 64-bit integer. *)
Definition max_limit : Z := 2 ^ 63 - 1.

(** Lines 333-381.  [order_by('-q_value')[:limit]] is the stable descending
    sort of the filtered rows cut after [limit] rows; the query does not fix
    the order of rows with equal q_value, and no statement below depends on
    it.  A negative bound is refused by the queryset when it is sliced, and
    a bound beyond [max_limit] by the database when the query runs. *)
Definition get (state action min_q_value limit : option string) (qt : QTable)
  : Response QTableBody :=
  match (limit ← export_limit limit;
         min_q ← export_min_q min_q_value;
         let rows :=
           List.filter (fun r => min_q_filter min_q (qr_q_value r))
             (List.filter (fun r => name_filter action (qr_action r))
                (List.filter (fun r => name_filter state (qr_state r))
                   (all_rows qt))) in
         if limit <? 0 then Raise NegativeIndexing
         else if max_limit <? limit then Raise DatabaseError
         else
           let q_table := take (Z.to_nat limit) (sort_desc qr_q_value rows) in
           Ok (Success {| qtb_entries := q_table;
                          qtb_count := length q_table;
                          qtb_total_entries := size qt |})) with
  | Ok response => response
  | Raise e => Failure HTTP_500_INTERNAL_SERVER_ERROR (QTableFailed e)
  end.
End QTableView.

(** ** ManualTrainingView *)

Record TrainingBody : Type := {
  tb_iterations : Z;
  tb_supplier_count : option nat;     (* [None] is the string "all" *)
}.

(** [len(v)] *)
Definition py_len (v : value) : result nat :=
  match v with
  | VStr s => Ok (String.length s)
  | VList l => Ok (length l)
  | VDict d => Ok (length d)
  | _ => Raise TypeError
  end.

(** The database transaction a decorated view runs in: the table as the
    view has written it so far, and the mark Django sets when a database
    error is raised inside the block, also when the error is then caught. *)
Record Transaction : Type := {
  tx_table : QTable;
  tx_needs_rollback : bool;
}.

Definition begin_transaction (qt : QTable) : Transaction :=
  {| tx_table := qt; tx_needs_rollback := false |}.

(** A database error raised inside the block marks the transaction. *)
Definition mark_for_rollback_on_error (e : exn) (tx : Transaction) : Transaction :=
  {| tx_table := tx_table tx;
     tx_needs_rollback := tx_needs_rollback tx || is_database_error e |}.

(** [@transaction.atomic]: on exit the block commits what was written when
    the view returned and the transaction is not marked for rollback; it
    rolls back when an exception leaves the view, and also when the view
    returned but a database error had marked the transaction. *)
Definition atomic {A} (view : Transaction -> result A * Transaction) (qt : QTable)
  : result A * QTable :=
  match view (begin_transaction qt) with
  | (Ok a, tx) => (Ok a, if tx_needs_rollback tx then qt else tx_table tx)
  | (Raise e, _) => (Raise e, qt)
  end.

Module ManualTrainingView.
Section post.
(** The agent's batch training, run inside the transaction of the view: it
    may write the Q-table, may mark the transaction and may raise. *)
Variable batch_train : Z -> value -> Transaction -> result unit * Transaction.

(** Lines 228-252, the body under the decorator.  An exception caught by
    [except Exception] has marked the transaction if it is a database
    error. *)
Definition handler (data : gmap string value) (tx : Transaction)
  : Response TrainingBody * Transaction :=
  match py_int (data_get data "iterations" (VInt 100)) with
  | Raise e => (Failure HTTP_500_INTERNAL_SERVER_ERROR (TrainingFailed e), tx)
  | Ok iterations =>
      let supplier_ids := data_get data "supplier_ids" VNone in
      match batch_train iterations supplier_ids tx with
      | (Raise e, tx') =>
          (Failure HTTP_500_INTERNAL_SERVER_ERROR (TrainingFailed e),
           mark_for_rollback_on_error e tx')
      | (Ok _, tx') =>
          match (if truthy supplier_ids
                 then n ← py_len supplier_ids; Ok (Some n)
                 else Ok None) with
          | Ok count =>
              (Success {| tb_iterations := iterations;
                          tb_supplier_count := count |}, tx')
          | Raise e =>
              (Failure HTTP_500_INTERNAL_SERVER_ERROR (TrainingFailed e), tx')
          end
      end
  end.

Definition post (data : gmap string value) (qt : QTable)
  : result (Response TrainingBody) * QTable :=
  atomic (fun tx => let '(response, tx') := handler data tx in (Ok response, tx')) qt.
End post.
End ManualTrainingView.

(** ** The agent

    The module [ranking_engine.q_learning.agent] is not part of the sources;
    its operations are modelled from sections 4.3 and 4.4 of the
    specification, over the environment, the metrics source and the
    configuration constants, which stay parameters. *)

Module Agent.
Section agent.
Variables alpha gamma epsilon : Q.
Variable calculate_combined_metrics : value -> result Metrics.
Variable get_state_from_metrics : Metrics -> result QLearningState.
Variable get_actions : QLearningState -> result (list QLearningAction).
Variable get_reward : value -> QLearningState -> QLearningAction -> result Q.
Variable next_state : value -> QLearningAction -> result QLearningState.
Variable blend : Q -> pyfloat -> Q.
Variable supplier_name : Z -> string.
Variable all_suppliers : list value.

(** Modelled from the spec: the Q-table store's [get(state, action)], which
    returns 0.0 when there is no entry. *)
Definition q_get (qt : QTable) (s : QLearningState) (a : QLearningAction) : Q :=
  stored_q_value qt s a.

(** Modelled from the spec: the Q-table store's
    [upsert(state, action, new_value)], which writes the value and
    increments the update count of the key, creating the entry on its
    first write. *)
Definition upsert (qt : QTable) (s : QLearningState) (a : QLearningAction) (v : Q)
  : QTable :=
  <[qkey s a := {| q_value := v;
                   update_count := S (from_option update_count 0%nat (qt !! qkey s a)) |}]> qt.

(** Modelled from the spec: the max term of the learning rule, the largest
    stored value over the candidate actions of the next state, 0 when
    there are none. *)
Fixpoint max_q (qt : QTable) (s : QLearningState) (actions : list QLearningAction) : Q :=
  match actions with
  | [] => 0
  | [a] => q_get qt s a
  | a :: rest =>
      let m := max_q qt s rest in
      if Qle_bool m (q_get qt s a) then q_get qt s a else m
  end.

(** Modelled from the spec: the agent's [learn], step 5 and 6 of the
    feedback state machine,
    [new_q = old_q + alpha * (reward + gamma * max - old_q)]
    written through [upsert]. *)
Definition learn (s : QLearningState) (a : QLearningAction) (reward : Q)
    (next : QLearningState) (qt : QTable) : result Q * QTable :=
  match get_actions next with
  | Raise e => (Raise e, qt)
  | Ok candidates =>
      let old_q := q_get qt s a in
      let new_q :=
        Qred (old_q + alpha * (reward + gamma * max_q qt next candidates - old_q)) in
      (Ok new_q, upsert qt s a new_q)
  end.

(** Modelled from the spec: exploitation, the candidate with the largest
    stored value, the lowest index winning a tie. *)
Fixpoint best_action (qt : QTable) (s : QLearningState) (actions : list QLearningAction)
  : option QLearningAction :=
  match actions with
  | [] => None
  | a :: rest =>
      match best_action qt s rest with
      | Some b => if Qle_bool (q_get qt s b) (q_get qt s a) then Some a else Some b
      | None => Some a
      end
  end.

(** Modelled from the spec: action selection; when exploring, with
    probability epsilon a uniformly drawn candidate replaces the best
    one. *)
Definition select_action (exploration : bool) (d : Draw) (qt : QTable)
    (s : QLearningState) (actions : list QLearningAction) : result QLearningAction :=
  let chosen :=
    if exploration && Qltb (coin d) epsilon
    then actions !! (pick d mod length actions)%nat
    else best_action qt s actions in
  match chosen with
  | Some a => Ok a
  | None => Raise NoCandidateActions
  end.

(** Modelled from the spec: the agent's [rank_supplier], the current state
    of the supplier, the selected action, its reward, and a score blending
    the stored value of the action with the raw overall metric. *)
Definition rank_supplier (d : Draw) (supplier_id : Z) (update_ranking exploration : bool)
    (qt : QTable) : result (QLearningAction * Q * option Ranking) :=
  metrics ← calculate_combined_metrics (VInt supplier_id);
  state ← get_state_from_metrics metrics;
  actions ← get_actions state;
  action ← select_action exploration d qt state actions;
  reward ← get_reward (VInt supplier_id) state action;
  Ok (action, reward,
      Some {| rk_supplier_id := supplier_id;
              rk_supplier_name := supplier_name supplier_id;
              rk_overall_score := blend (q_get qt state action) (overall_score metrics);
              rk_state := state |}).

(** Modelled from the spec: one iteration of batch training, a sampled
    supplier whose metrics are replayed through the learning update with
    exploration enabled. *)
Definition train_iteration (d : Draw) (pool : list value) (qt : QTable)
  : result QTable :=
  match pool !! (sample d mod length pool)%nat with
  | None => Raise (ServiceError "no supplier to sample")
  | Some supplier_id =>
      metrics ← calculate_combined_metrics supplier_id;
      state ← get_state_from_metrics metrics;
      actions ← get_actions state;
      action ← select_action true d qt state actions;
      reward ← get_reward supplier_id state action;
      next ← next_state supplier_id action;
      match learn state action reward next qt with
      | (Ok _, qt') => Ok qt'
      | (Raise e, _) => Raise e
      end
  end.

(** Modelled from the spec: one iteration inside a transaction.  Once the
    transaction is marked for rollback every query is refused, so the
    iteration fails; otherwise it runs on the table as it stands. *)
Definition train_step (d : Draw) (pool : list value) (tx : Transaction)
  : result QTable :=
  if tx_needs_rollback tx then Raise TransactionManagementError
  else train_iteration d pool (tx_table tx).

(** Modelled from the spec: the iterations [i], ..., [i + n - 1] of a
    batch; a failing iteration is skipped (its exception is caught, which
    leaves the transaction marked if it is a database error) and the next
    one runs on the table as it stands. *)
Fixpoint train_loop (rng : nat -> Draw) (pool : list value) (i n : nat)
    (tx : Transaction) : Transaction :=
  match n with
  | O => tx
  | S n' =>
      train_loop rng pool (S i) n'
        (match train_step (rng i) pool tx with
         | Ok qt' => {| tx_table := qt'; tx_needs_rollback := tx_needs_rollback tx |}
         | Raise e => mark_for_rollback_on_error e tx
         end)
  end.

(** Modelled from the spec: the suppliers a batch samples from, the
    restricted set when one is given and all known suppliers otherwise. *)
Definition supplier_pool (supplier_ids : value) : result (list value) :=
  if truthy supplier_ids then
    match supplier_ids with
    | VList pool => Ok pool
    | _ => Raise TypeError
    end
  else Ok all_suppliers.

(** Modelled from the spec: the agent's [batch_train], sampling from the
    restricted set of supplier ids when one is given and from all known
    suppliers otherwise. *)
Definition batch_train (rng : nat -> Draw) (iterations : Z) (supplier_ids : value)
    (tx : Transaction) : result unit * Transaction :=
  match supplier_pool supplier_ids with
  | Ok pool => (Ok (), train_loop rng pool 0 (Z.to_nat iterations) tx)
  | Raise e => (Raise e, tx)
  end.
End agent.
End Agent.

(** ** Predicates used in the statements *)

(** A score lies on the 1-10 scale. *)
Definition in_scale (x : pyfloat) : Prop :=
  match x with
  | Fin q => (1 <= q <= 10)%Q
  | _ => False
  end.

(** Rows with equal scores stand in ascending order of supplier id. *)
Definition ties_by_supplier_id (rows : list RankedSupplier) : Prop :=
  forall (i j : nat) (a b : RankedSupplier),
    (i < j)%nat -> rows !! i = Some a -> rows !! j = Some b ->
    (rs_score a == rs_score b)%Q -> rs_supplier_id a <= rs_supplier_id b.

(** The row is the one produced for the candidate [(k, supplier_id)], the
    [k]-th of the listing. *)
Definition row_of_candidate
    (get_supplier : value -> result value)
    (rank_supplier : Draw -> Z -> bool -> bool -> QTable ->
                     result (QLearningAction * Q * option Ranking))
    (rng : nat -> Draw) (qt : QTable)
    (candidate : nat * Z) (row : RankedSupplier) : Prop :=
  exists supplier sc a r rk,
    get_supplier (VInt candidate.2) = Ok supplier /\
    supplier_city supplier = Ok sc /\
    rank_supplier (rng candidate.1) candidate.2 true false qt = Ok (a, r, Some rk) /\
    row = ranked_supplier qt rk a sc.

(** A supplier record without a city: no top-level [city] field and either
    no [user] field or a [user] object without a [city] field. *)
Definition carries_no_city (supplier : value) : Prop :=
  exists d, supplier = VDict d /\ assoc "city" d = None /\
    (assoc "user" d = None \/
     exists u, assoc "user" d = Some (VDict u) /\ assoc "city" u = None).

(** A supplier record without a city whose [user] field is null: no
    top-level [city] field, and ["user": null]. *)
Definition no_city_null_user (supplier : value) : Prop :=
  exists d, supplier = VDict d /\ assoc "city" d = None /\
            assoc "user" d = Some VNone.

(** How many times a pair has been updated. *)
Definition updates (qt : QTable) (key : string * string) : nat :=
  from_option update_count 0%nat (qt !! key).


(** ** A small deployment used to run the views on concrete requests *)

Module Sample.

Definition get_supplier (supplier_id : value) : result value :=
  match supplier_id with
  | VInt 1 => Ok (VDict [("company_name", VStr "Acme"); ("city", VStr "Colombo")])
  | VInt 2 => Ok (VDict [("name", VStr "Beta"); ("user", VDict [("city", VStr "Kandy")])])
  | VInt 3 => Ok (VDict [("name", VStr "Gamma")])
  | VInt 4 => Ok (VDict [("name", VStr "Delta")])
  | _ => Ok VNone
  end.

Definition get_suppliers_by_product (product_id : string) : result (list Z) :=
  if String.eqb product_id "P1" then Ok [3; 2; 1]
  else if String.eqb product_id "P2" then Ok [4; 3]
  else Ok [].

Definition calculate_combined_metrics (supplier_id : value) : result Metrics :=
  match supplier_id with
  | VInt 1 => Ok {| quality_score := Fin 9; delivery_score := Fin 8;
                    price_score := Fin 7; service_score := Fin 10;
                    overall_score := Fin (17 # 2) |}
  | VInt 2 | VInt 3 | VStr "3" =>
      Ok {| quality_score := Fin 6; delivery_score := Fin 6;
            price_score := Fin 6; service_score := Fin 6;
            overall_score := Fin 6 |}
  | VInt 4 => Ok {| quality_score := Fin 2; delivery_score := Fin 2;
                    price_score := Fin 2; service_score := Fin 2;
                    overall_score := Fin 2 |}
  | _ => Raise (ServiceError "unknown supplier")
  end.

Definition get_state_from_metrics (m : Metrics) : result QLearningState :=
  Ok {| state_name := if flt (overall_score m) (Fin 5) then "LOW" else "HIGH" |}.

Definition get_actions (s : QLearningState) : result (list QLearningAction) :=
  if String.eqb (state_name s) "HIGH"
  then Ok [ {| action_name := "HOLD" |};
            {| action_name := "RANK_TIER_1" |};
            {| action_name := "RANK_TIER_2" |} ]
  else Ok [ {| action_name := "HOLD" |} ].

Definition get_reward (supplier_id : value) (s : QLearningState) (a : QLearningAction)
  : result Q := Ok 8%Q.

Definition next_state (supplier_id : value) (a : QLearningAction) : result QLearningState :=
  Ok {| state_name := "HIGH" |}.

Definition blend (q : Q) (raw : pyfloat) : Q :=
  match raw with
  | Fin r => Qred (q + r)
  | _ => q
  end.

Definition supplier_name (supplier_id : Z) : string :=
  match supplier_id with
  | 1 => "Acme" | 2 => "Beta" | 3 => "Gamma" | _ => "Delta"
  end.

Definition learn :=
  Agent.learn (1 # 10) (9 # 10) get_actions.

Definition rank_supplier :=
  Agent.rank_supplier (1 # 10) calculate_combined_metrics get_state_from_metrics
    get_actions get_reward blend supplier_name.

Definition batch_train :=
  Agent.batch_train (1 # 10) (9 # 10) (1 # 10) calculate_combined_metrics
    get_state_from_metrics get_actions get_reward next_state
    [VInt 1; VInt 2; VInt 3].

Definition post :=
  FeedbackView.post get_supplier get_state_from_metrics get_actions get_reward
    next_state learn.

Definition train_loop :=
  Agent.train_loop (1 # 10) (9 # 10) (1 # 10) calculate_combined_metrics
    get_state_from_metrics get_actions get_reward next_state.

Definition no_draw : nat -> Draw := fun _ => {| coin := 1; pick := 0; sample := 0 |}.


(** [{"iterations": 3, "supplier_ids": [1, 99]}]: supplier 99 has no
    metrics, so the second iteration fails. *)
Definition training_request : gmap string value :=
  list_to_map [("iterations", VInt 3); ("supplier_ids", VList [VInt 1; VInt 99])].

(** [{"supplier_id": 1, "product_id": 7, "quality_rating": 0.9,
      "delivery_time_days": 2, "issues": 0}] *)
Definition feedback : gmap string value :=
  list_to_map [("supplier_id", VInt 1); ("product_id", VInt 7);
               ("quality_rating", VFloat (Fin (9 # 10)));
               ("delivery_time_days", VInt 2); ("issues", VInt 0)].

(** A feedback for a supplier the directory does not know, without a
    product. *)
Definition feedback_unknown_no_product : gmap string value :=
  list_to_map [("supplier_id", VInt 99); ("quality_rating", VFloat (Fin (9 # 10)))].

(** A poor feedback: it maps to the state LOW, which offers no rank tier. *)
Definition feedback_poor : gmap string value :=
  list_to_map [("supplier_id", VInt 1); ("product_id", VInt 7);
               ("quality_rating", VFloat (Fin (1 # 10)));
               ("delivery_time_days", VInt 9); ("issues", VInt 5)].

Definition qt1 : QTable :=
  list_to_map [(("HIGH", "RANK_TIER_1"), {| q_value := 5; update_count := 3 |});
               (("HIGH", "RANK_TIER_2"), {| q_value := 6; update_count := 1 |});
               (("LOW", "HOLD"), {| q_value := 0; update_count := 2 |})].

End Sample.

(** ** Further predicates and sample data *)

(** The three filters of the export, taken together. *)
Definition passes_filters (state action : option string) (m : option pyfloat)
    (r : QTableRow) : bool :=
  name_filter state (qr_state r) && name_filter action (qr_action r) &&
  min_q_filter m (qr_q_value r).







(** The pair of names that identifies an exported row. *)
Definition row_key (r : QTableRow) : string * string := (qr_state r, qr_action r).

(** The entry of the table under a pair of names, as (value, count), with
    (0.0, 0) for a pair that has none. *)
Definition stored_pair (qt : QTable) (key : string * string) : Q * nat :=
  from_option (fun e => (q_value e, update_count e)) (0%Q, 0%nat) (qt !! key).

Module Sample2.

(** The directory of [Sample] with a record whose [user] field is null and
    a supplier id on which the directory service fails. *)
Definition get_supplier (supplier_id : value) : result value :=
  match supplier_id with
  | VInt 5 => Ok (VDict [("company_name", VStr "Epsilon"); ("user", VNone)])
  | VInt 6 => Raise (ServiceError "directory unavailable")
  | _ => Sample.get_supplier supplier_id
  end.

Definition get_suppliers_by_product (product_id : string) : result (list Z) :=
  if String.eqb product_id "P3" then Ok [1; 6]
  else if String.eqb product_id "P4" then Ok [98; 99]
  else if String.eqb product_id "P5" then Ok [3; 5]
  else if String.eqb product_id "P6" then Ok [3]
  else Sample.get_suppliers_by_product product_id.

Definition post :=
  FeedbackView.post get_supplier Sample.get_state_from_metrics Sample.get_actions
    Sample.get_reward Sample.next_state Sample.learn.

(** Batch training when no supplier is known: every iteration fails for
    want of a supplier to sample. *)
Definition batch_train :=
  Agent.batch_train (1 # 10) (9 # 10) (1 # 10) Sample.calculate_combined_metrics
    Sample.get_state_from_metrics Sample.get_actions Sample.get_reward
    Sample.next_state [].

(** The metrics source of [Sample] when the query for supplier 97 fails in
    the database. *)
Definition calculate_combined_metrics (supplier_id : value) : result Metrics :=
  match supplier_id with
  | VInt 97 => Raise DatabaseError
  | _ => Sample.calculate_combined_metrics supplier_id
  end.


Definition train_loop :=
  Agent.train_loop (1 # 10) (9 # 10) (1 # 10) calculate_combined_metrics
    Sample.get_state_from_metrics Sample.get_actions Sample.get_reward
    Sample.next_state.

Definition train_step :=
  Agent.train_step (1 # 10) (9 # 10) (1 # 10) calculate_combined_metrics
    Sample.get_state_from_metrics Sample.get_actions Sample.get_reward
    Sample.next_state.

(** [{"iterations": 3, "supplier_ids": [1, 97]}] *)
Definition training_request : gmap string value :=
  list_to_map [("iterations", VInt 3); ("supplier_ids", VList [VInt 1; VInt 97])].

(** [{"supplier_id": 5, "product_id": 7, "quality_rating": 0.9}] *)
Definition feedback_null_user : gmap string value :=
  list_to_map [("supplier_id", VInt 5); ("product_id", VInt 7);
               ("quality_rating", VFloat (Fin (9 # 10)))].



End Sample2.

(** * Properties *)

(** ** Floats *)

Lemma Qltb_true (a b : Q) : Qltb a b = true <-> (a < b)%Q.
Proof.
  unfold Qltb. rewrite negb_true_iff.
  split.
  - intros H. apply Qnot_le_lt. intros Hle. apply Qle_bool_iff in Hle. congruence.
  - intros H. destruct (Qle_bool b a) eqn:E; [|reflexivity].
    apply Qle_bool_iff in E. exfalso. exact (Qlt_not_le _ _ H E).
Qed.

Lemma Qltb_false (a b : Q) : Qltb a b = false <-> (b <= a)%Q.
Proof.
  unfold Qltb. rewrite negb_false_iff. apply Qle_bool_iff.
Qed.

Lemma threshold_large : (1000 < inject_Z overflow_threshold)%Q.
Proof. unfold Qlt. vm_compute. reflexivity. Qed.

Lemma norm_small (q : Q) : (Qabs q <= 1000)%Q -> norm q = Fin (Qred q).
Proof.
  intros H. unfold norm.
  destruct (Qle_bool (inject_Z overflow_threshold) (Qabs q)) eqn:E; [|reflexivity].
  apply Qle_bool_iff in E. pose proof threshold_large as T.
  exfalso. apply (Qlt_not_le _ _ T). eapply Qle_trans; eassumption.
Qed.

Lemma norm_not_nan (q : Q) : norm q <> NaN.
Proof. unfold norm. repeat case_match; discriminate. Qed.

Lemma clamp_1_10_in_scale (x : pyfloat) : x <> NaN -> in_scale (clamp_1_10 x).
Proof.
  intros Hx. destruct x as [q| | |]; try congruence; unfold clamp_1_10, py_max, py_min.
  - cbn [flt].
    destruct (Qltb q 1) eqn:E1; cbn [flt].
    + change (Qltb 10 1) with false. cbn. split; [apply Qle_refl | discriminate].
    + apply Qltb_false in E1.
      destruct (Qltb 10 q) eqn:E2; cbn.
      * split; [discriminate | apply Qle_refl].
      * apply Qltb_false in E2. split; assumption.
  - cbn. split; [discriminate | apply Qle_refl].
  - cbn. split; [apply Qle_refl | discriminate].
Qed.

Lemma clamp_1_10_nan : clamp_1_10 NaN = NaN.
Proof. reflexivity. Qed.

Lemma fsign_pos (c : Q) : (0 < c)%Q -> fsign (Fin c) = Some true.
Proof. intros H. cbn. apply Qltb_true in H. rewrite H. reflexivity. Qed.

Lemma fmul_pos_not_nan (a : pyfloat) (c : Q) :
  (0 < c)%Q -> a <> NaN -> fmul a (Fin c) <> NaN.
Proof.
  intros Hc Ha. destruct a as [q| | |]; try congruence.
  - cbn. apply norm_not_nan.
  - unfold fmul. rewrite (fsign_pos c Hc). cbn. discriminate.
  - unfold fmul. rewrite (fsign_pos c Hc). cbn. discriminate.
Qed.

Lemma fsub_fin_not_nan (c : Q) (a : pyfloat) : a <> NaN -> fsub (Fin c) a <> NaN.
Proof.
  intros Ha. destruct a as [q| | |]; try congruence; cbn; try discriminate.
  apply norm_not_nan.
Qed.

Lemma py_min_not_nan (a b : pyfloat) : a <> NaN -> b <> NaN -> py_min a b <> NaN.
Proof. intros Ha Hb. unfold py_min. destruct (flt b a); assumption. Qed.

Lemma quarter_of_score (x : pyfloat) :
  in_scale x ->
  exists q, x = Fin q /\ (1 <= q <= 10)%Q /\ fmul x (Fin (1 # 4)) = Fin (Qred (q * (1 # 4))).
Proof.
  destruct x as [q| | |]; unfold in_scale; try tauto.
  intros [H1 H2]. exists q. unfold fmul. repeat split; try assumption.
  apply norm_small. apply Qabs_Qle_condition. split; lra.
Qed.

(** When no input is NaN the four component scores and the overall score lie
    on the 1-10 scale and the overall score is the mean of the components. *)
Lemma feedback_metrics_clamped (quality_rating delivery_time_days issues : value)
    (q d i : pyfloat) :
  py_float quality_rating = Ok q ->
  py_float (py_or delivery_time_days (VInt 1)) = Ok d ->
  py_float issues = Ok i ->
  q <> NaN -> d <> NaN -> i <> NaN ->
  exists a b c e o : Q,
    feedback_metrics quality_rating delivery_time_days issues =
      Ok {| quality_score := Fin a; delivery_score := Fin b; price_score := Fin c;
            service_score := Fin e; overall_score := Fin o |} /\
    (1 <= a <= 10)%Q /\ (1 <= b <= 10)%Q /\ (1 <= c <= 10)%Q /\ (1 <= e <= 10)%Q /\
    (1 <= o <= 10)%Q /\ (o == (a + b + c + e) / 4)%Q.
Proof.
  intros Hq Hd Hi Nq Nd Ni.
  unfold feedback_metrics. rewrite Hq, Hd, Hi. cbn [mbind result_bind rbind].
  pose proof (clamp_1_10_in_scale (fmul q (Fin 10))
                (fmul_pos_not_nan q 10 ltac:(reflexivity) Nq)) as Sa.
  pose proof (clamp_1_10_in_scale (fsub (Fin 10) (py_min d (Fin 10)))
                (fsub_fin_not_nan 10 _ (py_min_not_nan d (Fin 10) Nd ltac:(discriminate))))
    as Sb.
  pose proof (clamp_1_10_in_scale (fsub (Fin 10) (fmul i (Fin 2)))
                (fsub_fin_not_nan 10 _ (fmul_pos_not_nan i 2 ltac:(reflexivity) Ni)))
    as Se.
  destruct (quarter_of_score _ Sa) as (a & Ea & Ra & Qa).
  destruct (quarter_of_score _ Sb) as (b & Eb & Rb & Qb).
  destruct (quarter_of_score _ Se) as (e & Ee & Re & Qe).
  rewrite Qa, Qb, Qe, Ea, Eb, Ee.
  pose proof (Qred_correct (a * (1 # 4))) as Ca.
  pose proof (Qred_correct (b * (1 # 4))) as Cb.
  pose proof (Qred_correct (e * (1 # 4))) as Ce.
  change (fmul (Fin 7) (Fin (1 # 4))) with (Fin (7 # 4)).
  unfold fadd.
  set (a4 := Qred (a * (1 # 4))) in *. set (b4 := Qred (b * (1 # 4))) in *.
  set (e4 := Qred (e * (1 # 4))) in *.
  rewrite (norm_small (a4 + b4)) by (apply Qabs_Qle_condition; split; lra).
  pose proof (Qred_correct (a4 + b4)) as Cab. set (ab := Qred (a4 + b4)) in *.
  rewrite (norm_small (ab + (7 # 4))) by (apply Qabs_Qle_condition; split; lra).
  pose proof (Qred_correct (ab + (7 # 4))) as Cabc. set (abc := Qred (ab + (7 # 4))) in *.
  rewrite (norm_small (abc + e4)) by (apply Qabs_Qle_condition; split; lra).
  pose proof (Qred_correct (abc + e4)) as Co. set (o := Qred (abc + e4)) in *.
  exists a, b, 7%Q, e, o. split; [reflexivity|].
  repeat split; try assumption; try lra; try discriminate.
  rewrite Co, Cabc, Cab, Ca, Cb, Ce. field.
Qed.

(** Comparisons, [min] and [max] around the infinities and NaN. *)
Example float_corner_cases :
  flt (Fin 1) PInf = true /\ flt PInf PInf = false /\ flt NInf (Fin 0) = true /\
  flt NaN (Fin 1) = false /\ flt (Fin 1) NaN = false /\
  py_max NaN (Fin 1) = NaN /\ py_max (Fin 1) NaN = Fin 1 /\
  py_min NaN (Fin 10) = NaN /\ py_min (Fin 10) NaN = Fin 10 /\
  clamp_1_10 PInf = Fin 10 /\ clamp_1_10 NInf = Fin 1 /\
  fmul PInf (Fin 0) = NaN /\ fsub PInf PInf = NaN /\
  py_float (VInt (2 ^ 1024)) = Raise OverflowError.
Proof. vm_compute. repeat split. Qed.

(** ** Literals *)

Example float_of_string_examples :
  float_of_string "0.9" = Some (Fin (9 # 10)) /\
  float_of_string " -1_0.5e1 " = Some (Fin (-105 # 1)) /\
  float_of_string "NaN" = Some NaN /\
  float_of_string "-Infinity" = Some NInf /\
  float_of_string "1e400" = Some PInf /\
  float_of_string "1__0" = None /\
  float_of_string "." = None /\
  float_of_string ".5" = Some (Fin (1 # 2)) /\
  float_of_string "5." = Some (Fin 5) /\
  float_of_string "" = None /\
  int_of_string " +1_000 " = Some 1000 /\
  int_of_string "-7" = Some (-7) /\
  int_of_string "1.5" = None.
Proof. vm_compute. repeat split. Qed.

(** ** FeedbackView *)

(** The scenario of the specification: a quality rating of 0.9, a delivery
    in 2 days and no issues. *)
Example feedback_scenario :
  feedback_metrics (VFloat (Fin (9 # 10))) (VInt 2) (VInt 0) =
  Ok {| quality_score := Fin 9; delivery_score := Fin 8; price_score := Fin 7;
        service_score := Fin 10; overall_score := Fin (17 # 2) |}.
Proof. vm_compute. reflexivity. Qed.

(** C1: for the feedback [{"supplier_id": 1, "product_id": 7,
    "quality_rating": "nan", "delivery_time_days": 2, "issues": 0}] the
    metrics record derived by the view has [quality_score] and
    [overall_score] equal to NaN, and the view goes on with it to the
    learning step and returns it in its response: the clamp
    [min(max(x, 1), 10)] lets NaN through, so these two scores are not on
    the 1-10 scale. *)
Theorem feedback_nan_escapes_clamp :
  feedback_metrics (VStr "nan") (VInt 2) (VInt 0) =
    Ok {| quality_score := NaN; delivery_score := Fin 8; price_score := Fin 7;
          service_score := Fin 10; overall_score := NaN |} /\
  match (Sample.post (<["quality_rating" := VStr "nan"]> Sample.feedback) Sample.qt1).1 with
  | Ok (Success body) =>
      fb_metrics body =
        {| quality_score := NaN; delivery_score := Fin 8; price_score := Fin 7;
           service_score := Fin 10; overall_score := NaN |}
  | _ => False
  end /\
  ~ in_scale NaN.
Proof.
  split; [vm_compute; reflexivity|].
  split; [vm_compute; reflexivity | intros []].
Qed.

Lemma py_all_required (s p q : value) :
  py_all [s; p; q] = truthy s && truthy p && truthy q.
Proof. unfold py_all. cbn. rewrite andb_true_r, andb_assoc. reflexivity. Qed.

Lemma data_get_delete (data : gmap string value) (k : string) (d : value) :
  data_get (delete k data) k d = d.
Proof. unfold data_get. rewrite lookup_delete_eq. reflexivity. Qed.

Lemma data_get_delete_ne (data : gmap string value) (k k' : string) (d : value) :
  k <> k' -> data_get (delete k data) k' d = data_get data k' d.
Proof. intros H. unfold data_get. rewrite lookup_delete_ne by assumption. reflexivity. Qed.

Section feedback.
Variable get_supplier : value -> result value.
Variable get_state_from_metrics : Metrics -> result QLearningState.
Variable get_actions : QLearningState -> result (list QLearningAction).
Variable get_reward : value -> QLearningState -> QLearningAction -> result Q.
Variable next_state : value -> QLearningAction -> result QLearningState.
Variable learn : QLearningState -> QLearningAction -> Q -> QLearningState ->
                 QTable -> result Q * QTable.

Local Abbreviation post :=
  (FeedbackView.post get_supplier get_state_from_metrics get_actions
     get_reward next_state learn).
Local Abbreviation update_q_value :=
  (FeedbackView.update_q_value get_reward next_state learn).

Lemma post_required_fields (data : gmap string value) (qt : QTable) :
  py_all [data_get data "supplier_id" VNone; data_get data "product_id" VNone;
          data_get data "quality_rating" VNone] = false ->
  post data qt = (Ok (Failure HTTP_400_BAD_REQUEST RequiredFields), qt).
Proof. intros H. unfold post, FeedbackView.post. rewrite H. reflexivity. Qed.

(** C9: a feedback whose [supplier_id], [product_id] or [quality_rating]
    is present with a falsy value (0, 0.0, the empty string, false, null,
    an empty list or object) is rejected with status 400 and the
    missing-required-fields error, the Q-table untouched, and the answer
    is the one given to the same request with the field left out. *)
Theorem falsy_required_field_rejected
    (data : gmap string value) (qt : QTable) (k : string) (v : value) :
  k = "supplier_id" \/ k = "product_id" \/ k = "quality_rating" ->
  data !! k = Some v ->
  truthy v = false ->
  post data qt = (Ok (Failure HTTP_400_BAD_REQUEST RequiredFields), qt) /\
  post (delete k data) qt = post data qt.
Proof.
  intros Hk Hv Hf.
  assert (Hget : truthy (data_get data k VNone) = false)
    by (unfold data_get; rewrite Hv; exact Hf).
  assert (Hdel : truthy (data_get (delete k data) k VNone) = false)
    by (rewrite data_get_delete; reflexivity).
  assert (E : forall d : gmap string value,
             truthy (data_get d k VNone) = false ->
             post d qt = (Ok (Failure HTTP_400_BAD_REQUEST RequiredFields), qt)).
  { intros d Hd. apply post_required_fields. rewrite py_all_required.
    destruct Hk as [-> | [-> | ->]]; rewrite Hd;
      rewrite ?andb_false_r; reflexivity. }
  split; [apply E; exact Hget|].
  rewrite (E data Hget). apply E. exact Hdel.
Qed.

(** C4, amended: when the supplier id of a feedback resolves to nothing (the
    directory answers with a falsy record), the view answers with an error
    and the Q-table it was given, whatever the learning step is: status 404
    and the supplier-not-found error when the three required fields are
    truthy, status 400 and the missing-required-fields error otherwise. *)
Theorem unresolved_supplier_fails_before_learning
    (data : gmap string value) (qt : QTable) (supplier : value) :
  get_supplier (data_get data "supplier_id" VNone) = Ok supplier ->
  truthy supplier = false ->
  post data qt =
    (Ok (if py_all [data_get data "supplier_id" VNone;
                    data_get data "product_id" VNone;
                    data_get data "quality_rating" VNone]
         then Failure HTTP_404_NOT_FOUND
                (SupplierNotFound (data_get data "supplier_id" VNone))
         else Failure HTTP_400_BAD_REQUEST RequiredFields), qt) /\
  forall learn',
    FeedbackView.post get_supplier get_state_from_metrics get_actions
      get_reward next_state learn' data qt = post data qt.
Proof.
  intros Hs Hf. unfold FeedbackView.post.
  destruct (py_all _) eqn:E; cbn [negb]; [|split; reflexivity].
  rewrite Hs, Hf. cbn [negb]. split; reflexivity.
Qed.

Lemma rank_tier_action_first (actions : list QLearningAction) (a : QLearningAction) :
  rank_tier_action actions = Some a ->
  exists before after,
    actions = before ++ a :: after /\ is_rank_tier a = true /\
    Forall (fun b => is_rank_tier b = false) before.
Proof.
  unfold rank_tier_action.
  induction actions as [|b actions IH]; cbn; [discriminate|].
  destruct (is_rank_tier b) eqn:E.
  - intros [= <-]. exists [], actions. repeat split; [assumption | constructor].
  - intros H. destruct (IH H) as (before & after & -> & Ha & Hb).
    exists (b :: before), after. repeat split; [assumption|].
    constructor; assumption.
Qed.

Lemma rank_tier_action_none (actions : list QLearningAction) :
  rank_tier_action actions = None ->
  Forall (fun b => is_rank_tier b = false) actions.
Proof.
  unfold rank_tier_action.
  induction actions as [|b actions IH]; cbn; [constructor|].
  destruct (is_rank_tier b) eqn:E; [discriminate|].
  intros H. constructor; [assumption | exact (IH H)].
Qed.

(** C5: once a feedback has passed validation, its supplier is known and
    its state and candidate actions are computed, the action that learns is
    the first candidate, in the order of the environment, whose name starts
    with RANK_TIER_; when no candidate has such a name the view answers
    with status 400 and the no-suitable-action error and leaves the
    Q-table as it was. *)
Theorem feedback_action_selection
    (data : gmap string value) (qt : QTable) (supplier : value)
    (metrics : Metrics) (state : QLearningState) (actions : list QLearningAction) :
  py_all [data_get data "supplier_id" VNone; data_get data "product_id" VNone;
          data_get data "quality_rating" VNone] = true ->
  get_supplier (data_get data "supplier_id" VNone) = Ok supplier ->
  truthy supplier = true ->
  feedback_metrics (data_get data "quality_rating" VNone)
    (data_get data "delivery_time_days" VNone)
    (data_get data "issues" (VInt 0)) = Ok metrics ->
  get_state_from_metrics metrics = Ok state ->
  get_actions state = Ok actions ->
  match rank_tier_action actions with
  | Some action =>
      (exists before after,
          actions = before ++ action :: after /\ is_rank_tier action = true /\
          Forall (fun b => is_rank_tier b = false) before) /\
      post data qt =
        update_q_value supplier (data_get data "supplier_id" VNone)
          (data_get data "product_id" VNone) (data_get data "city" VNone)
          metrics state action qt
  | None =>
      Forall (fun b => is_rank_tier b = false) actions /\
      post data qt = (Ok (Failure HTTP_400_BAD_REQUEST NoSuitableAction), qt)
  end.
Proof.
  intros Hv Hs Ht Hm Hst Ha.
  assert (E : post data qt =
              match rank_tier_action actions with
              | Some action =>
                  update_q_value supplier (data_get data "supplier_id" VNone)
                    (data_get data "product_id" VNone) (data_get data "city" VNone)
                    metrics state action qt
              | None => (Ok (Failure HTTP_400_BAD_REQUEST NoSuitableAction), qt)
              end).
  { unfold FeedbackView.post. rewrite Hv, Hs, Ht, Hm. cbn [negb mbind result_bind rbind].
    rewrite Hst. cbn [mbind result_bind rbind]. rewrite Ha. reflexivity. }
  destruct (rank_tier_action actions) as [action|] eqn:F.
  - split; [apply rank_tier_action_first; exact F | exact E].
  - split; [apply rank_tier_action_none; exact F | exact E].
Qed.

(** The chosen action is the one handed to the learning step, whose table
    is the one the view leaves behind. *)
Lemma update_q_value_learns (supplier supplier_id product_id city : value)
    (metrics : Metrics) (state next : QLearningState) (action : QLearningAction)
    (reward : Q) (qt : QTable) :
  get_reward supplier_id state action = Ok reward ->
  next_state supplier_id action = Ok next ->
  (update_q_value supplier supplier_id product_id city metrics state action qt).2 =
    (learn state action reward next qt).2.
Proof.
  intros Hr Hn. unfold FeedbackView.update_q_value. rewrite Hr. cbn. rewrite Hn. cbn.
  destruct (learn state action reward next qt). reflexivity.
Qed.
End feedback.

Lemma prefix_startswith (p s : string) :
  String.prefix p s = true <-> exists rest, s = (p +:+ rest)%string.
Proof.
  revert s. induction p as [|c p IH]; intros s.
  - split; [intros _; exists s; reflexivity | intros _; destruct s; reflexivity].
  - destruct s as [|d s]; cbn.
    + split; [discriminate | intros [rest [=]]].
    + destruct (Ascii.ascii_dec c d) as [->|Hne].
      * rewrite IH. split; intros [rest H]; exists rest.
        -- rewrite H. reflexivity.
        -- change (String d s = String d (p +:+ rest)) in H. congruence.
      * split; [discriminate|]. intros [rest H].
        change (String d s = String c (p +:+ rest)) in H. congruence.
Qed.

Lemma is_rank_tier_startswith (a : QLearningAction) :
  is_rank_tier a = true <-> exists rest, action_name a = ("RANK_TIER_" +:+ rest)%string.
Proof. apply prefix_startswith. Qed.

Lemma falsy_required_field_rejected_witness :
  ("quality_rating" = "supplier_id" \/ "quality_rating" = "product_id" \/
   "quality_rating" = "quality_rating") /\
  (<["quality_rating" := VInt 0]> Sample.feedback) !! "quality_rating" = Some (VInt 0) /\
  truthy (VInt 0) = false /\
  Sample.post (<["quality_rating" := VInt 0]> Sample.feedback) Sample.qt1 =
    (Ok (Failure HTTP_400_BAD_REQUEST RequiredFields), Sample.qt1) /\
  Sample.post (delete "quality_rating" (<["quality_rating" := VInt 0]> Sample.feedback))
    Sample.qt1 =
  Sample.post (<["quality_rating" := VInt 0]> Sample.feedback) Sample.qt1.
Proof.
  assert (H1 : "quality_rating" = "supplier_id" \/ "quality_rating" = "product_id" \/
               "quality_rating" = "quality_rating") by (right; right; reflexivity).
  assert (H2 : (<["quality_rating" := VInt 0]> Sample.feedback) !! "quality_rating"
               = Some (VInt 0)) by (vm_compute; reflexivity).
  assert (H3 : truthy (VInt 0) = false) by reflexivity.
  split; [exact H1|]. split; [exact H2|]. split; [exact H3|].
  exact (falsy_required_field_rejected Sample.get_supplier Sample.get_state_from_metrics
           Sample.get_actions Sample.get_reward Sample.next_state Sample.learn
           _ Sample.qt1 _ _ H1 H2 H3).
Defined.

(** C4, as stated, fails: the directory does not know supplier 99, and the
    feedback [{"supplier_id": 99, "quality_rating": 0.9}] is answered with
    status 400 and the missing-required-fields error, not with the
    supplier-not-found error. *)
Lemma unresolved_supplier_reported_as_missing_fields :
  Sample.get_supplier (data_get Sample.feedback_unknown_no_product "supplier_id" VNone)
    = Ok VNone /\
  (Sample.post Sample.feedback_unknown_no_product Sample.qt1).1 =
    Ok (Failure HTTP_400_BAD_REQUEST RequiredFields) /\
  (Sample.post Sample.feedback_unknown_no_product Sample.qt1).1 <>
    Ok (Failure HTTP_404_NOT_FOUND (SupplierNotFound (VInt 99))).
Proof.
  split; [vm_compute; reflexivity|].
  split; [vm_compute; reflexivity|].
  vm_compute. discriminate.
Qed.

Lemma unresolved_supplier_fails_before_learning_witness :
  Sample.get_supplier
    (data_get (<["supplier_id" := VInt 99]> Sample.feedback) "supplier_id" VNone)
    = Ok VNone /\
  truthy VNone = false /\
  Sample.post (<["supplier_id" := VInt 99]> Sample.feedback) Sample.qt1 =
    (Ok (Failure HTTP_404_NOT_FOUND (SupplierNotFound (VInt 99))), Sample.qt1).
Proof.
  assert (H1 : Sample.get_supplier
                 (data_get (<["supplier_id" := VInt 99]> Sample.feedback) "supplier_id" VNone)
               = Ok VNone) by (vm_compute; reflexivity).
  assert (H2 : truthy VNone = false) by reflexivity.
  split; [exact H1|]. split; [exact H2|].
  exact (proj1 (unresolved_supplier_fails_before_learning Sample.get_supplier
                  Sample.get_state_from_metrics Sample.get_actions Sample.get_reward
                  Sample.next_state Sample.learn _ Sample.qt1 _ H1 H2)).
Defined.

Lemma feedback_action_selection_witness :
  Sample.post Sample.feedback Sample.qt1 =
    FeedbackView.update_q_value Sample.get_reward Sample.next_state Sample.learn
      (VDict [("company_name", VStr "Acme"); ("city", VStr "Colombo")]) (VInt 1) (VInt 7)
      VNone
      {| quality_score := Fin 9; delivery_score := Fin 8; price_score := Fin 7;
         service_score := Fin 10; overall_score := Fin (17 # 2) |}
      {| state_name := "HIGH" |} {| action_name := "RANK_TIER_1" |} Sample.qt1 /\
  Sample.post Sample.feedback_poor Sample.qt1 =
    (Ok (Failure HTTP_400_BAD_REQUEST NoSuitableAction), Sample.qt1).
Proof.
  split.
  - refine (proj2 (feedback_action_selection Sample.get_supplier
                     Sample.get_state_from_metrics Sample.get_actions Sample.get_reward
                     Sample.next_state Sample.learn Sample.feedback Sample.qt1
                     (VDict [("company_name", VStr "Acme"); ("city", VStr "Colombo")])
                     {| quality_score := Fin 9; delivery_score := Fin 8;
                        price_score := Fin 7; service_score := Fin 10;
                        overall_score := Fin (17 # 2) |}
                     {| state_name := "HIGH" |}
                     [ {| action_name := "HOLD" |}; {| action_name := "RANK_TIER_1" |};
                       {| action_name := "RANK_TIER_2" |} ]
                     _ _ _ _ _ _)); vm_compute; reflexivity.
  - refine (proj2 (feedback_action_selection Sample.get_supplier
                     Sample.get_state_from_metrics Sample.get_actions Sample.get_reward
                     Sample.next_state Sample.learn Sample.feedback_poor Sample.qt1
                     (VDict [("company_name", VStr "Acme"); ("city", VStr "Colombo")])
                     {| quality_score := Fin 1; delivery_score := Fin 1;
                        price_score := Fin 7; service_score := Fin 1;
                        overall_score := Fin (5 # 2) |}
                     {| state_name := "LOW" |}
                     [ {| action_name := "HOLD" |} ]
                     _ _ _ _ _ _)); vm_compute; reflexivity.
Defined.

(** ** Sorting *)

Section sort_facts.
Context {A : Type} (key : A -> Q).

Local Abbreviation desc := (desc key).
Local Abbreviation with_key := (with_key key).

Lemma desc_trans (a b c : A) : desc a b -> desc b c -> desc a c.
Proof. unfold desc. intros H1 H2. eapply Qle_trans; eassumption. Qed.

Lemma insert_desc_perm (x : A) (l : list A) : Permutation (insert_desc key x l) (x :: l).
Proof.
  induction l as [|y l IH]; cbn; [reflexivity|].
  destruct (Qle_bool (key y) (key x)); [reflexivity|].
  rewrite IH. apply perm_swap.
Qed.

Lemma sort_desc_perm (l : list A) : Permutation (sort_desc key l) l.
Proof.
  induction l as [|x l IH]; cbn; [reflexivity|].
  rewrite insert_desc_perm. constructor. exact IH.
Qed.

Lemma insert_desc_hd (x y : A) (l : list A) :
  desc y x -> HdRel desc y l -> HdRel desc y (insert_desc key x l).
Proof.
  intros Hyx Hl. destruct l as [|z l]; cbn; [constructor; exact Hyx|].
  destruct (Qle_bool (key z) (key x)); constructor; [exact Hyx|].
  inversion Hl; assumption.
Qed.

Lemma insert_desc_sorted (x : A) (l : list A) :
  Sorted desc l -> Sorted desc (insert_desc key x l).
Proof.
  induction l as [|y l IH]; intros Hs; cbn.
  - repeat constructor.
  - destruct (Qle_bool (key y) (key x)) eqn:E.
    + constructor; [exact Hs|]. constructor. apply Qle_bool_iff. exact E.
    + apply Sorted_inv in Hs as [Hs Hhd].
      constructor; [exact (IH Hs)|].
      apply insert_desc_hd; [|exact Hhd].
      unfold desc. apply Qlt_le_weak. apply Qltb_true. unfold Qltb. rewrite E. reflexivity.
Qed.

Lemma sort_desc_sorted (l : list A) : StronglySorted desc (sort_desc key l).
Proof.
  apply Sorted_StronglySorted; [intros a b c; apply desc_trans|].
  induction l as [|x l IH]; cbn; [constructor|].
  apply insert_desc_sorted. exact IH.
Qed.

(** Stability: the elements of one key come out in the order they went
    in. *)
Lemma insert_desc_with_key (v : Q) (x : A) (l : list A) :
  with_key v (insert_desc key x l) = with_key v (x :: l).
Proof.
  unfold with_key. induction l as [|y l IH]; [reflexivity|].
  cbn [insert_desc]. destruct (Qle_bool (key y) (key x)) eqn:E; [reflexivity|].
  cbn [List.filter] in *. rewrite IH.
  destruct (Qeq_bool (key x) v) eqn:Ex; [|reflexivity].
  destruct (Qeq_bool (key y) v) eqn:Ey; [|reflexivity].
  exfalso. apply Qeq_bool_iff in Ex, Ey.
  assert (Hle : (key y <= key x)%Q) by (rewrite Ex, Ey; apply Qle_refl).
  apply Qle_bool_iff in Hle. congruence.
Qed.

Lemma sort_desc_stable (v : Q) (l : list A) :
  with_key v (sort_desc key l) = with_key v l.
Proof.
  induction l as [|x l IH]; [reflexivity|].
  cbn [sort_desc foldr]. rewrite insert_desc_with_key.
  unfold with_key in *. cbn [List.filter]. fold (sort_desc key l). rewrite IH. reflexivity.
Qed.

Lemma sort_desc_length (l : list A) : length (sort_desc key l) = length l.
Proof. apply Permutation_length, sort_desc_perm. Qed.

Lemma sort_desc_In (x : A) (l : list A) : In x (sort_desc key l) <-> In x l.
Proof.
  split; apply Permutation_in; [|symmetry]; apply sort_desc_perm.
Qed.
End sort_facts.

(** ** SupplierRankingView *)

Section ranking.
Variable get_suppliers_by_product : string -> result (list Z).
Variable get_supplier : value -> result value.
Variable rank_supplier :
  Draw -> Z -> bool -> bool -> QTable ->
  result (QLearningAction * Q * option Ranking).
Variable city : option string.
Variable rng : nat -> Draw.
Variable qt : QTable.

Local Abbreviation get :=
  (SupplierRankingView.get get_suppliers_by_product get_supplier rank_supplier
     city rng qt).
Local Abbreviation rank_loop :=
  (SupplierRankingView.rank_loop get_supplier rank_supplier city rng qt).
Local Abbreviation row_of_candidate :=
  (row_of_candidate get_supplier rank_supplier rng qt).

Lemma get_success (product_id : option string) (body : RankingBody) :
  get product_id = Success body ->
  exists suppliers ranked,
    get_suppliers_by_product (default "" product_id) = Ok suppliers /\
    rank_loop 0 suppliers = Ok ranked /\
    body = {| rb_product_id := default "" product_id;
              rb_city := city;
              rb_suppliers := sort_desc rs_score ranked;
              rb_count := length (sort_desc rs_score ranked) |}.
Proof.
  unfold SupplierRankingView.get.
  destruct (param_truthy product_id); cbn [negb]; [|discriminate].
  destruct (get_suppliers_by_product _) as [suppliers|e];
    cbn [mbind result_bind rbind]; [|discriminate].
  destruct suppliers as [|s suppliers]; [discriminate|].
  remember (s :: suppliers) as candidates eqn:Ec.
  rewrite Ec at 1. rewrite <- Ec.
  destruct (rank_loop 0 candidates) as [ranked|e] eqn:E;
    cbn [mbind result_bind rbind]; [|discriminate].
  intros [= <-]. exists candidates, ranked.
  split; [reflexivity|]. split; [exact E | reflexivity].
Qed.

(** The loop produces its rows in the order of the candidate listing. *)
Lemma rank_loop_order (suppliers : list Z) :
  forall (i : nat) (ranked : list RankedSupplier),
  rank_loop i suppliers = Ok ranked ->
  exists kept,
    sublist kept (zip (seq i (length suppliers)) suppliers) /\
    Forall2 row_of_candidate kept ranked.
Proof.
  induction suppliers as [|sid rest IH]; intros i ranked.
  - intros [= <-]. exists []. split; constructor.
  - cbn [SupplierRankingView.rank_loop length seq zip zip_with].
    destruct (get_supplier (VInt sid)) as [supplier|] eqn:Hs;
      cbn [mbind result_bind rbind]; [|discriminate].
    destruct (truthy supplier); cbn [negb].
    2:{ intros H. destruct (IH _ _ H) as (kept & Hsub & Hall).
        exists kept. split; [apply sublist_cons; exact Hsub | exact Hall]. }
    destruct (supplier_city supplier) as [sc|] eqn:Hc; cbn [mbind result_bind rbind];
      [|discriminate].
    destruct (city_excluded city sc) as [[|]|]; cbn [mbind result_bind rbind];
      [|  |discriminate].
    { intros H. destruct (IH _ _ H) as (kept & Hsub & Hall).
      exists kept. split; [apply sublist_cons; exact Hsub | exact Hall]. }
    destruct (rank_supplier (rng i) sid true false qt) as [[[a r] [rk|]]|] eqn:Hr;
      cbn [mbind result_bind rbind]; [| |discriminate].
    2:{ intros H. destruct (IH _ _ H) as (kept & Hsub & Hall).
        exists kept. split; [apply sublist_cons; exact Hsub | exact Hall]. }
    destruct (rank_loop (S i) rest) as [rows|] eqn:Hrest;
      cbn [mbind result_bind rbind]; [|discriminate].
    intros [= <-]. destruct (IH _ _ Hrest) as (kept & Hsub & Hall).
    exists ((i, sid) :: kept). split; [apply sublist_skip; exact Hsub|].
    constructor; [|exact Hall].
    exists supplier, sc, a, r, rk. repeat split; assumption.
Qed.

(** C2, amended: the suppliers of a ranking response are in descending
    order of score; they are the rows the ranking loop produced, one for
    each candidate it kept, in the order of the candidate listing; and the
    rows of any one score stand in the response in that same order. *)
Theorem ranking_sorted_stable (product_id : option string) (body : RankingBody) :
  get product_id = Success body ->
  exists suppliers kept ranked,
    get_suppliers_by_product (default "" product_id) = Ok suppliers /\
    sublist kept (zip (seq 0 (length suppliers)) suppliers) /\
    Forall2 row_of_candidate kept ranked /\
    Permutation (rb_suppliers body) ranked /\
    StronglySorted (desc rs_score) (rb_suppliers body) /\
    (forall v, with_key rs_score v (rb_suppliers body) = with_key rs_score v ranked) /\
    rb_count body = length ranked.
Proof.
  intros H. destruct (get_success _ _ H) as (suppliers & ranked & Hs & Hr & ->).
  destruct (rank_loop_order _ _ _ Hr) as (kept & Hsub & Hall).
  exists suppliers, kept, ranked. cbn [rb_suppliers rb_count].
  repeat split; try assumption.
  - apply sort_desc_perm.
  - apply sort_desc_sorted.
  - intros v. apply sort_desc_stable.
  - apply sort_desc_length.
Qed.
End ranking.

Lemma no_city_passes_filter (supplier : value) (city : option string) :
  carries_no_city supplier ->
  supplier_city supplier = Ok VNone /\ city_excluded city VNone = Ok false.
Proof.
  intros (d & -> & Hc & Hu). split.
  - unfold supplier_city. cbn. rewrite Hc. cbn.
    destruct Hu as [-> | (u & -> & Hcu)]; [reflexivity|].
    cbn. rewrite Hcu. reflexivity.
  - unfold city_excluded. cbn [truthy]. rewrite andb_false_r. reflexivity.
Qed.

Section ranking_filter.
Variable get_suppliers_by_product : string -> result (list Z).
Variable get_supplier : value -> result value.
Variable rank_supplier :
  Draw -> Z -> bool -> bool -> QTable ->
  result (QLearningAction * Q * option Ranking).
Variable city : option string.
Variable rng : nat -> Draw.
Variable qt : QTable.

Local Abbreviation get :=
  (SupplierRankingView.get get_suppliers_by_product get_supplier rank_supplier
     city rng qt).
Local Abbreviation rank_loop :=
  (SupplierRankingView.rank_loop get_supplier rank_supplier city rng qt).

Lemma rank_loop_cons (i : nat) (sid : Z) (rest : list Z) (ranked : list RankedSupplier) :
  rank_loop i (sid :: rest) = Ok ranked ->
  exists rows, rank_loop (S i) rest = Ok rows /\
               (ranked = rows \/ exists row, ranked = row :: rows).
Proof.
  cbn [SupplierRankingView.rank_loop].
  destruct (get_supplier (VInt sid)) as [supplier|]; cbn [mbind result_bind rbind];
    [|discriminate].
  destruct (truthy supplier); cbn [negb]; [|intros H; eauto].
  destruct (supplier_city supplier) as [sc|]; cbn [mbind result_bind rbind];
    [|discriminate].
  destruct (city_excluded city sc) as [[|]|]; cbn [mbind result_bind rbind];
    [intros H; eauto| |discriminate].
  destruct (rank_supplier _ _ _ _ _) as [[[a r] [rk|]]|]; cbn [mbind result_bind rbind];
    [|intros H; eauto|discriminate].
  destruct (rank_loop (S i) rest) as [rows|]; cbn [mbind result_bind rbind];
    [|discriminate].
  intros [= <-]. eauto.
Qed.

(** A candidate that resolves, is not skipped by the filter and gets a
    ranking from the agent has its row among those of the loop. *)
Lemma rank_loop_included (suppliers : list Z) :
  forall (i k : nat) (ranked : list RankedSupplier) (sid : Z) (supplier sc : value)
         (a : QLearningAction) (r : Q) (rk : Ranking),
  rank_loop i suppliers = Ok ranked ->
  suppliers !! k = Some sid ->
  get_supplier (VInt sid) = Ok supplier ->
  truthy supplier = true ->
  supplier_city supplier = Ok sc ->
  city_excluded city sc = Ok false ->
  rank_supplier (rng (i + k)%nat) sid true false qt = Ok (a, r, Some rk) ->
  In (ranked_supplier qt rk a sc) ranked.
Proof.
  induction suppliers as [|h rest IH]; intros i k ranked sid supplier sc a r rk
    Hloop Hk Hs Ht Hc He Hr; [discriminate|].
  destruct k as [|k].
  - injection Hk as ->. rewrite Nat.add_0_r in Hr.
    cbn [SupplierRankingView.rank_loop] in Hloop.
    rewrite Hs in Hloop. cbn [mbind result_bind rbind] in Hloop.
    rewrite Ht in Hloop. cbn [negb] in Hloop.
    rewrite Hc in Hloop. cbn [mbind result_bind rbind] in Hloop.
    rewrite He in Hloop. cbn [mbind result_bind rbind] in Hloop.
    rewrite Hr in Hloop. cbn [mbind result_bind rbind] in Hloop.
    destruct (rank_loop (S i) rest) as [rows|]; cbn [mbind result_bind rbind] in Hloop;
      [|discriminate].
    injection Hloop as <-. left. reflexivity.
  - destruct (rank_loop_cons _ _ _ _ Hloop) as (rows & Hrows & Hranked).
    assert (Hin : In (ranked_supplier qt rk a sc) rows).
    { apply (IH (S i) k rows sid supplier sc a r rk); try assumption.
      replace (S i + k)%nat with (i + S k)%nat by lia. exact Hr. }
    destruct Hranked as [-> | [row ->]]; [exact Hin | right; exact Hin].
Qed.

(** X24: in a ranking query that completes, a candidate whose record has
    no top-level city field and either no user field or a user object
    without a city is never skipped by the city filter: whatever city is
    requested, once the supplier resolves and the agent ranks it, its row
    is among the ranked suppliers of the response, with a null city. *)
Theorem city_filter_keeps_cityless
    (product_id : option string) (body : RankingBody) (suppliers : list Z)
    (k : nat) (sid : Z) (supplier : value)
    (a : QLearningAction) (r : Q) (rk : Ranking) :
  get product_id = Success body ->
  get_suppliers_by_product (default "" product_id) = Ok suppliers ->
  suppliers !! k = Some sid ->
  get_supplier (VInt sid) = Ok supplier ->
  truthy supplier = true ->
  carries_no_city supplier ->
  rank_supplier (rng k) sid true false qt = Ok (a, r, Some rk) ->
  In (ranked_supplier qt rk a VNone) (rb_suppliers body).
Proof.
  intros Hget Hsup Hk Hs Ht Hn Hr.
  destruct (get_success _ _ _ _ _ _ _ _ Hget) as (suppliers' & ranked & Hs' & Hloop & ->).
  rewrite Hsup in Hs'. injection Hs' as <-.
  cbn [rb_suppliers]. apply sort_desc_In.
  destruct (no_city_passes_filter supplier city Hn) as [Hc He].
  exact (rank_loop_included suppliers 0 k ranked sid supplier VNone a r rk
           Hloop Hk Hs Ht Hc He Hr).
Qed.
End ranking_filter.

(** The view reaches the agent only through calls with
    [update_ranking=True] and [exploration=False]: two agents, or two random
    sources, that agree on those calls give the same response. *)
Lemma ranking_calls_without_exploration
    (get_suppliers_by_product : string -> result (list Z))
    (get_supplier : value -> result value)
    (agent1 agent2 : Draw -> Z -> bool -> bool -> QTable ->
                     result (QLearningAction * Q * option Ranking))
    (city : option string) (rng1 rng2 : nat -> Draw) (qt : QTable)
    (product_id : option string) :
  (forall d1 d2 sid, agent1 d1 sid true false qt = agent2 d2 sid true false qt) ->
  SupplierRankingView.get get_suppliers_by_product get_supplier agent1 city rng1 qt
    product_id =
  SupplierRankingView.get get_suppliers_by_product get_supplier agent2 city rng2 qt
    product_id.
Proof.
  intros Hagree.
  assert (Hloop : forall suppliers i,
    SupplierRankingView.rank_loop get_supplier agent1 city rng1 qt i suppliers =
    SupplierRankingView.rank_loop get_supplier agent2 city rng2 qt i suppliers).
  { induction suppliers as [|sid rest IH]; intros i; [reflexivity|].
    cbn [SupplierRankingView.rank_loop].
    rewrite (Hagree (rng1 i) (rng2 i) sid). rewrite !IH. reflexivity. }
  unfold SupplierRankingView.get.
  destruct (param_truthy product_id); cbn [negb]; [|reflexivity].
  destruct (get_suppliers_by_product _) as [suppliers|e]; [|reflexivity].
  cbn [mbind result_bind rbind]. rewrite Hloop. reflexivity.
Qed.

Section agent_ranking.
Variable epsilon : Q.
Variable calculate_combined_metrics : value -> result Metrics.
Variable get_state_from_metrics : Metrics -> result QLearningState.
Variable get_actions : QLearningState -> result (list QLearningAction).
Variable get_reward : value -> QLearningState -> QLearningAction -> result Q.
Variable blend : Q -> pyfloat -> Q.
Variable supplier_name : Z -> string.

Local Abbreviation rank_supplier :=
  (Agent.rank_supplier epsilon calculate_combined_metrics get_state_from_metrics
     get_actions get_reward blend supplier_name).

(** With exploration disabled the draw of the random source is not
    consulted. *)
Lemma rank_supplier_exploit_only (d1 d2 : Draw) (sid : Z) (update_ranking : bool)
    (qt : QTable) :
  rank_supplier d1 sid update_ranking false qt =
  rank_supplier d2 sid update_ranking false qt.
Proof. reflexivity. Qed.

(** C8: the ranking view calls the agent with exploration disabled, so the
    response to a ranking query (the suppliers, their order and their
    scores) does not depend on the random source: for the same product,
    city, collaborators and Q-table, any two random sources give the same
    response. *)
Theorem ranking_reproducible
    (get_suppliers_by_product : string -> result (list Z))
    (get_supplier : value -> result value)
    (city : option string) (qt : QTable) (product_id : option string)
    (rng1 rng2 : nat -> Draw) :
  SupplierRankingView.get get_suppliers_by_product get_supplier rank_supplier
    city rng1 qt product_id =
  SupplierRankingView.get get_suppliers_by_product get_supplier rank_supplier
    city rng2 qt product_id.
Proof.
  apply ranking_calls_without_exploration.
  intros d1 d2 sid. apply rank_supplier_exploit_only.
Qed.

(** Exploration, which the view never asks for, does consult the draw. *)
Lemma select_action_explores (d : Draw) (qt : QTable) (s : QLearningState)
    (actions : list QLearningAction) :
  Qltb (coin d) epsilon = true ->
  Agent.select_action epsilon true d qt s actions =
    match actions !! (pick d mod length actions)%nat with
    | Some a => Ok a
    | None => Raise NoCandidateActions
    end.
Proof. intros H. unfold Agent.select_action. rewrite H. reflexivity. Qed.
End agent_ranking.

(** With the same Q-table, an exploring agent would rank supplier 1 under
    RANK_TIER_1 or RANK_TIER_2 depending on the draw. *)
Example exploring_agent_depends_on_draw :
  Sample.rank_supplier {| coin := 0; pick := 1; sample := 0 |} 1 true true Sample.qt1 <>
  Sample.rank_supplier {| coin := 0; pick := 2; sample := 0 |} 1 true true Sample.qt1.
Proof. vm_compute. discriminate. Qed.

(** C2, as stated, fails: for product P1 the candidates are listed as 3, 2,
    1; suppliers 3 and 2 both score 12 and are returned in that order, so
    two suppliers of equal score are not in ascending order of supplier
    id. *)
Lemma ranking_ties_keep_listing_order :
  exists body,
    SupplierRankingView.get Sample.get_suppliers_by_product Sample.get_supplier
      Sample.rank_supplier None Sample.no_draw Sample.qt1 (Some "P1") = Success body /\
    map (fun row => (rs_supplier_id row, rs_score row)) (rb_suppliers body) =
      [(1, (29 # 2)%Q); (3, 12%Q); (2, 12%Q)] /\
    ~ ties_by_supplier_id (rb_suppliers body).
Proof.
  eexists. split; [vm_compute; reflexivity|].
  split; [reflexivity|].
  intros H.
  specialize (H 1%nat 2%nat _ _ ltac:(lia) eq_refl eq_refl ltac:(reflexivity)).
  cbn in H. lia.
Qed.

Lemma ranking_sorted_stable_witness :
  exists body ranked,
    SupplierRankingView.get Sample.get_suppliers_by_product Sample.get_supplier
      Sample.rank_supplier None Sample.no_draw Sample.qt1 (Some "P1") = Success body /\
    Permutation (rb_suppliers body) ranked /\
    StronglySorted (desc rs_score) (rb_suppliers body) /\
    (forall v, with_key rs_score v (rb_suppliers body) = with_key rs_score v ranked) /\
    rb_count body = length ranked.
Proof.
  eexists.
  assert (H : SupplierRankingView.get Sample.get_suppliers_by_product Sample.get_supplier
                Sample.rank_supplier None Sample.no_draw Sample.qt1 (Some "P1")
              = Success _) by (vm_compute; reflexivity).
  destruct (ranking_sorted_stable Sample.get_suppliers_by_product Sample.get_supplier
              Sample.rank_supplier None Sample.no_draw Sample.qt1 (Some "P1") _ H)
    as (suppliers & kept & ranked & _ & _ & _ & H3).
  exists ranked. split; [exact H | exact H3].
Defined.

Lemma city_filter_keeps_cityless_witness :
  exists body,
    SupplierRankingView.get Sample.get_suppliers_by_product Sample.get_supplier
      Sample.rank_supplier (Some "kandy") Sample.no_draw Sample.qt1 (Some "P1")
      = Success body /\
    carries_no_city (VDict [("name", VStr "Gamma")]) /\
    In (ranked_supplier Sample.qt1
          {| rk_supplier_id := 3; rk_supplier_name := "Gamma";
             rk_overall_score := 12; rk_state := {| state_name := "HIGH" |} |}
          {| action_name := "RANK_TIER_2" |} VNone)
       (rb_suppliers body).
Proof.
  eexists.
  assert (H : SupplierRankingView.get Sample.get_suppliers_by_product Sample.get_supplier
                Sample.rank_supplier (Some "kandy") Sample.no_draw Sample.qt1 (Some "P1")
              = Success _) by (vm_compute; reflexivity).
  assert (Hn : carries_no_city (VDict [("name", VStr "Gamma")])).
  { eexists. split; [reflexivity|]. split; [reflexivity | left; reflexivity]. }
  split; [exact H|]. split; [exact Hn|].
  refine (city_filter_keeps_cityless Sample.get_suppliers_by_product
            Sample.get_supplier Sample.rank_supplier (Some "kandy") Sample.no_draw
            Sample.qt1 (Some "P1") _ [3; 2; 1] 0%nat 3
            (VDict [("name", VStr "Gamma")]) {| action_name := "RANK_TIER_2" |} 8%Q
            {| rk_supplier_id := 3; rk_supplier_name := "Gamma";
               rk_overall_score := 12; rk_state := {| state_name := "HIGH" |} |}
            H _ _ _ _ Hn _); vm_compute; reflexivity.
Defined.

(** ** QValueView *)

Lemma q_value_row_absent (qt : QTable) (s : QLearningState) (a : QLearningAction) :
  qt !! qkey s a = None ->
  q_value_row qt s a =
    {| qv_action := action_name a; qv_q_value := 0; qv_update_count := 0 |}.
Proof. intros H. unfold q_value_row. rewrite H. reflexivity. Qed.

Lemma q_value_row_stored (qt : QTable) (s : QLearningState) (a : QLearningAction)
    (e : QTableEntry) :
  qt !! qkey s a = Some e ->
  q_value_row qt s a =
    {| qv_action := action_name a; qv_q_value := q_value e;
       qv_update_count := update_count e |}.
Proof. intros H. unfold q_value_row. rewrite H. reflexivity. Qed.

(** What [upsert] writes has been updated at least once, so its row differs
    from the row of a pair that was never written. *)
Lemma upsert_row (qt qt0 : QTable) (s : QLearningState) (a : QLearningAction) (v : Q) :
  qt0 !! qkey s a = None ->
  qv_update_count (q_value_row (Agent.upsert qt s a v) s a) <> 0%nat /\
  qv_q_value (q_value_row (Agent.upsert qt s a v) s a) = v /\
  q_value_row (Agent.upsert qt s a v) s a <> q_value_row qt0 s a.
Proof.
  intros H0. unfold Agent.upsert.
  rewrite (q_value_row_stored _ s a _ (lookup_insert_eq _ _ _)).
  rewrite (q_value_row_absent qt0 s a H0). cbn.
  repeat split; discriminate.
Qed.

Section q_values.
Variable calculate_combined_metrics : value -> result Metrics.
Variable get_state_from_metrics : Metrics -> result QLearningState.
Variable get_actions : QLearningState -> result (list QLearningAction).
Variable get_supplier : value -> result value.

Local Abbreviation get :=
  (QValueView.get calculate_combined_metrics get_state_from_metrics get_actions
     get_supplier).

(** C6: when the inspection endpoint answers for a supplier, it reports
    one row per candidate action of the supplier's state; a pair without a
    stored entry is reported with q_value 0.0 and update_count 0, never as
    a failure, and a stored entry is reported with its own value and
    count, so that an entry whose count is not 0 (every written entry)
    gives a row different from the row of a pair never written, even when
    its value is 0.0. *)
Theorem unwritten_pair_reports_zero
    (supplier_id : string) (qt : QTable) (metrics : Metrics) (state : QLearningState)
    (actions : list QLearningAction) (supplier : value) (name : option name_value) :
  supplier_id <> "" ->
  calculate_combined_metrics (VStr supplier_id) = Ok metrics ->
  get_state_from_metrics metrics = Ok state ->
  get_actions state = Ok actions ->
  get_supplier (VStr supplier_id) = Ok supplier ->
  company_name_if_found supplier (VStr supplier_id) = Ok name ->
  get (Some supplier_id) qt =
    Success {| qb_state := state_name state;
               qb_supplier_id := supplier_id;
               qb_company_name := name;
               qb_q_values := map (q_value_row qt state) actions;
               qb_metrics := metrics |} /\
  (forall a, In a actions -> qt !! qkey state a = None ->
      In {| qv_action := action_name a; qv_q_value := 0; qv_update_count := 0 |}
         (map (q_value_row qt state) actions)) /\
  (forall a e, In a actions -> qt !! qkey state a = Some e ->
      In {| qv_action := action_name a; qv_q_value := q_value e;
            qv_update_count := update_count e |}
         (map (q_value_row qt state) actions) /\
      (update_count e <> 0%nat ->
       q_value_row qt state a <>
         {| qv_action := action_name a; qv_q_value := 0; qv_update_count := 0 |})).
Proof.
  intros Hid Hm Hs Ha Hsup Hname. split; [|split].
  - unfold QValueView.get, param_truthy.
    apply String.eqb_neq in Hid. rewrite Hid. cbn [negb from_option id].
    rewrite Hm. cbn [mbind result_bind rbind]. rewrite Hs. cbn [mbind result_bind rbind].
    rewrite Ha. cbn [mbind result_bind rbind]. rewrite Hsup.
    cbn [mbind result_bind rbind]. rewrite Hname. reflexivity.
  - intros a Hin Hnone. rewrite <- (q_value_row_absent qt state a Hnone).
    apply in_map. exact Hin.
  - intros a e Hin Hsome. rewrite <- (q_value_row_stored qt state a e Hsome).
    split; [apply in_map; exact Hin|].
    intros Hpos. rewrite (q_value_row_stored qt state a e Hsome).
    intros [= _ Hc]. congruence.
Qed.
End q_values.

Lemma unwritten_pair_reports_zero_witness :
  QValueView.get Sample.calculate_combined_metrics Sample.get_state_from_metrics
    Sample.get_actions Sample.get_supplier (Some "3") Sample.qt1 =
  Success {| qb_state := "HIGH";
             qb_supplier_id := "3";
             qb_company_name := None;
             qb_q_values :=
               [ {| qv_action := "HOLD"; qv_q_value := 0; qv_update_count := 0 |};
                 {| qv_action := "RANK_TIER_1"; qv_q_value := 5; qv_update_count := 3 |};
                 {| qv_action := "RANK_TIER_2"; qv_q_value := 6; qv_update_count := 1 |} ];
             qb_metrics :=
               {| quality_score := Fin 6; delivery_score := Fin 6;
                  price_score := Fin 6; service_score := Fin 6;
                  overall_score := Fin 6 |} |}.
Proof.
  refine (proj1 (unwritten_pair_reports_zero Sample.calculate_combined_metrics
                   Sample.get_state_from_metrics Sample.get_actions Sample.get_supplier
                   "3" Sample.qt1
                   {| quality_score := Fin 6; delivery_score := Fin 6;
                      price_score := Fin 6; service_score := Fin 6;
                      overall_score := Fin 6 |}
                   {| state_name := "HIGH" |}
                   [ {| action_name := "HOLD" |}; {| action_name := "RANK_TIER_1" |};
                     {| action_name := "RANK_TIER_2" |} ]
                   VNone None _ _ _ _ _ _)); try (vm_compute; reflexivity).
  discriminate.
Defined.

(** The ranking view reads the stored value in the same way. *)
Lemma stored_q_value_absent (qt : QTable) (s : QLearningState) (a : QLearningAction) :
  qt !! qkey s a = None -> stored_q_value qt s a = 0%Q.
Proof. intros H. unfold stored_q_value. rewrite H. reflexivity. Qed.

(** ** QTableView *)



Lemma all_rows_stored (qt : QTable) (r : QTableRow) :
  In r (all_rows qt) <->
  qt !! (qr_state r, qr_action r) =
    Some {| q_value := qr_q_value r; update_count := qr_update_count r |}.
Proof.
  unfold all_rows. rewrite in_map_iff. split.
  - intros ([[s a] [q n]] & <- & Hin). cbn.
    apply list_elem_of_In, elem_of_map_to_list in Hin. exact Hin.
  - intros H. exists ((qr_state r, qr_action r),
                      {| q_value := qr_q_value r; update_count := qr_update_count r |}).
    split; [destruct r; reflexivity|].
    apply list_elem_of_In, elem_of_map_to_list. exact H.
Qed.

Lemma all_rows_length (qt : QTable) : length (all_rows qt) = size qt.
Proof. unfold all_rows. rewrite length_map. apply length_map_to_list. Qed.


Lemma filter_filter_filter {A : Type} (p1 p2 p3 : A -> bool) (l : list A) :
  List.filter p3 (List.filter p2 (List.filter p1 l)) =
  List.filter (fun x => p1 x && p2 x && p3 x) l.
Proof.
  induction l as [|x l IH]; [reflexivity|]. cbn [List.filter].
  destruct (p1 x); cbn [List.filter andb]; [|exact IH].
  destruct (p2 x); cbn [List.filter andb]; [|exact IH].
  destruct (p3 x); [|exact IH]. rewrite IH. reflexivity.
Qed.

(** The rows an export selects before it sorts and cuts them. *)
Lemma qtable_get_success (state action min_q_value limit : option string)
    (qt : QTable) (body : QTableBody) :
  QTableView.get state action min_q_value limit qt = Success body ->
  exists n m,
    export_limit limit = Ok n /\ 0 <= n /\ export_min_q min_q_value = Ok m /\
    body =
      {| qtb_entries :=
           take (Z.to_nat n)
             (sort_desc qr_q_value
                (List.filter (passes_filters state action m) (all_rows qt)));
         qtb_count :=
           length (take (Z.to_nat n)
             (sort_desc qr_q_value
                (List.filter (passes_filters state action m) (all_rows qt))));
         qtb_total_entries := size qt |}.
Proof.
  unfold QTableView.get.
  destruct (export_limit limit) as [n|]; [|discriminate].
  cbn [mbind result_bind rbind].
  destruct (export_min_q min_q_value) as [m|]; [|discriminate].
  cbn [mbind result_bind rbind].
  destruct (n <? 0) eqn:E; [discriminate|]. apply Z.ltb_ge in E.
  destruct (QTableView.max_limit <? n); [discriminate|].
  rewrite filter_filter_filter. intros [= <-]. exists n, m.
  repeat split; assumption.
Qed.

Lemma fmap_map {A B : Type} (f : A -> B) (l : list A) : f <$> l = map f l.
Proof. induction l as [|x l IH]; [reflexivity|]. cbn. rewrite <- IH. reflexivity. Qed.

Lemma all_rows_keys (qt : QTable) : List.NoDup (map row_key (all_rows qt)).
Proof.
  unfold all_rows. rewrite List.map_map.
  rewrite (List.map_ext _ fst) by (intros [[s a] e]; reflexivity).
  rewrite <- fmap_map. apply NoDup_ListNoDup. apply NoDup_fst_map_to_list.
Qed.

Lemma sublist_In {A : Type} (l k : list A) (x : A) :
  sublist l k -> In x l -> In x k.
Proof.
  intros Hsub. induction Hsub as [|y l k _ IH|y l k _ IH]; intros Hin.
  - exact Hin.
  - destruct Hin as [-> | Hin]; [left; reflexivity | right; exact (IH Hin)].
  - right. exact (IH Hin).
Qed.

Lemma NoDup_map_sublist {A B : Type} (f : A -> B) (l k : list A) :
  sublist l k -> List.NoDup (map f k) -> List.NoDup (map f l).
Proof.
  intros Hsub. induction Hsub as [|y l k Hsub IH|y l k Hsub IH]; intros Hk.
  - exact Hk.
  - cbn [map] in *. apply List.NoDup_cons_iff in Hk as [Hy Hk].
    apply List.NoDup_cons_iff. split; [|exact (IH Hk)].
    intros Hin. apply Hy. apply in_map_iff in Hin as (z & Hz & Hin).
    apply in_map_iff. exists z. split; [exact Hz | exact (sublist_In _ _ _ Hsub Hin)].
  - cbn [map] in Hk. apply List.NoDup_cons_iff in Hk as [_ Hk]. exact (IH Hk).
Qed.

Lemma filter_sublist {A : Type} (p : A -> bool) (l : list A) :
  sublist (List.filter p l) l.
Proof.
  induction l as [|x l IH]; cbn [List.filter]; [constructor|].
  destruct (p x); [apply sublist_skip | apply sublist_cons]; exact IH.
Qed.

Lemma strongly_sorted_app_elems {A : Type} (R : A -> A -> Prop) (l1 l2 : list A) :
  StronglySorted R (l1 ++ l2) ->
  forall x y, In x l1 -> In y l2 -> R x y.
Proof.
  induction l1 as [|a l1 IH]; intros Hs x y Hx Hy; [destruct Hx|].
  cbn in Hs. apply StronglySorted_inv in Hs as [Hs Ha].
  destruct Hx as [<- | Hx]; [|exact (IH Hs x y Hx Hy)].
  rewrite List.Forall_forall in Ha. apply Ha. apply in_or_app. right. exact Hy.
Qed.

Lemma export_limit_default : export_limit None = Ok 100.
Proof. reflexivity. Qed.









(** A negative limit, one that is not an integer literal, or one of 2^63
    or more makes the export fail with status 500. *)
Example qtable_export_bad_limit :
  QTableView.get None None None (Some "-1") Sample.qt1 =
    Failure HTTP_500_INTERNAL_SERVER_ERROR (QTableFailed NegativeIndexing) /\
  QTableView.get None None None (Some "ten") Sample.qt1 =
    Failure HTTP_500_INTERNAL_SERVER_ERROR (QTableFailed ValueError) /\
  QTableView.get None None None (Some "9223372036854775808") Sample.qt1 =
    Failure HTTP_500_INTERNAL_SERVER_ERROR (QTableFailed DatabaseError).
Proof. repeat split; vm_compute; reflexivity. Qed.

(** ** ManualTrainingView *)

(** Whatever the agent's policy on failures, an exception that leaves
    [batch_train] is caught inside the transaction and the view answers
    500.  What the batch had written up to then is committed, unless a
    database error has marked the transaction: then it is rolled back. *)
Lemma training_failure_outcome
    (batch_train : Z -> value -> Transaction -> result unit * Transaction)
    (data : gmap string value) (qt : QTable) (tx : Transaction) (iterations : Z)
    (e : exn) :
  py_int (data_get data "iterations" (VInt 100)) = Ok iterations ->
  batch_train iterations (data_get data "supplier_ids" VNone) (begin_transaction qt) =
    (Raise e, tx) ->
  ManualTrainingView.post batch_train data qt =
    (Ok (Failure HTTP_500_INTERNAL_SERVER_ERROR (TrainingFailed e)),
     if tx_needs_rollback tx || is_database_error e then qt else tx_table tx).
Proof.
  intros Hi Hb. unfold ManualTrainingView.post, atomic, ManualTrainingView.handler.
  rewrite Hi, Hb. reflexivity.
Qed.

(** A view that lets an exception out loses what it wrote. *)
Lemma atomic_rollback {A : Type} (view : Transaction -> result A * Transaction)
    (qt : QTable) (tx : Transaction) (e : exn) :
  view (begin_transaction qt) = (Raise e, tx) -> atomic view qt = (Raise e, qt).
Proof. intros H. unfold atomic. rewrite H. reflexivity. Qed.


Section training.
Variables alpha gamma epsilon : Q.
Variable calculate_combined_metrics : value -> result Metrics.
Variable get_state_from_metrics : Metrics -> result QLearningState.
Variable get_actions : QLearningState -> result (list QLearningAction).
Variable get_reward : value -> QLearningState -> QLearningAction -> result Q.
Variable next_state : value -> QLearningAction -> result QLearningState.
Variable all_suppliers : list value.
Variable rng : nat -> Draw.

Local Abbreviation train_iteration :=
  (Agent.train_iteration alpha gamma epsilon calculate_combined_metrics
     get_state_from_metrics get_actions get_reward next_state).
Local Abbreviation train_step :=
  (Agent.train_step alpha gamma epsilon calculate_combined_metrics
     get_state_from_metrics get_actions get_reward next_state).
Local Abbreviation train_loop :=
  (Agent.train_loop alpha gamma epsilon calculate_combined_metrics
     get_state_from_metrics get_actions get_reward next_state rng).
Local Abbreviation batch_train :=
  (Agent.batch_train alpha gamma epsilon calculate_combined_metrics
     get_state_from_metrics get_actions get_reward next_state all_suppliers rng).








End training.



(** * Further properties of the views *)

(** ** FeedbackView: scores *)

Lemma clamp_fin (y : Q) :
  exists q, clamp_1_10 (Fin y) = Fin q /\
    ((y <= 1)%Q -> (q == 1)%Q) /\
    ((1 <= y <= 10)%Q -> (q == y)%Q) /\
    ((10 <= y)%Q -> (q == 10)%Q).
Proof.
  unfold clamp_1_10, py_max, py_min. cbn [flt].
  destruct (Qltb y 1) eqn:E1; cbn [flt].
  - change (Qltb 10 1) with false. cbv iota. apply Qltb_true in E1.
    exists 1%Q. split; [reflexivity|]. repeat split; intros; lra.
  - apply Qltb_false in E1. destruct (Qltb 10 y) eqn:E2.
    + apply Qltb_true in E2. exists 10%Q. split; [reflexivity|].
      repeat split; intros; lra.
    + apply Qltb_false in E2. exists y. split; [reflexivity|].
      repeat split; intros; lra.
Qed.

(** The clamp of a number, whether or not it overflows. *)
Lemma clamp_norm (x : Q) :
  exists q, clamp_1_10 (norm x) = Fin q /\
    ((x <= 1)%Q -> (q == 1)%Q) /\
    ((1 <= x <= 10)%Q -> (q == x)%Q) /\
    ((10 <= x)%Q -> (q == 10)%Q).
Proof.
  unfold norm. pose proof threshold_large as T.
  destruct (Qle_bool (inject_Z overflow_threshold) (Qabs x)) eqn:E.
  - apply Qle_bool_iff in E. destruct (Qle_bool 0 x) eqn:E0.
    + apply Qle_bool_iff in E0. rewrite (Qabs_pos x E0) in E.
      exists 10%Q. split; [reflexivity|]. repeat split; intros; lra.
    + assert (H0 : (x < 0)%Q).
      { apply Qnot_le_lt. intros H. apply Qle_bool_iff in H. congruence. }
      exists 1%Q. split; [reflexivity|]. repeat split; intros; lra.
  - destruct (clamp_fin (Qred x)) as (q & Hq & H1 & H2 & H3).
    exists q. split; [exact Hq|]. rewrite (Qred_correct x) in H1, H2, H3.
    repeat split; assumption.
Qed.

Lemma feedback_metrics_inv (quality_rating delivery_time_days issues : value)
    (m : Metrics) :
  feedback_metrics quality_rating delivery_time_days issues = Ok m ->
  exists q d i,
    py_float quality_rating = Ok q /\
    py_float (py_or delivery_time_days (VInt 1)) = Ok d /\
    py_float issues = Ok i /\
    quality_score m = clamp_1_10 (fmul q (Fin 10)) /\
    delivery_score m = clamp_1_10 (fsub (Fin 10) (py_min d (Fin 10))) /\
    price_score m = Fin 7 /\
    service_score m = clamp_1_10 (fsub (Fin 10) (fmul i (Fin 2))).
Proof.
  unfold feedback_metrics.
  destruct (py_float quality_rating) as [q|]; [|discriminate].
  destruct (py_float (py_or _ _)) as [d|]; [|discriminate].
  destruct (py_float issues) as [i|]; [|discriminate].
  cbn [mbind result_bind rbind]. intros [= <-]. exists q, d, i.
  repeat split.
Qed.

(** X1: the quality score of a finite rating saturates at both ends of the
    1-10 scale: ratings up to 0.1 give 1.0, ratings from 1 on (a rating
    given in percent, say) give 10.0, and every rating gives a score from
    1 to 10. *)
Theorem quality_score_scale (quality_rating delivery_time_days issues : value)
    (r : Q) (m : Metrics) :
  py_float quality_rating = Ok (Fin r) ->
  feedback_metrics quality_rating delivery_time_days issues = Ok m ->
  exists q, quality_score m = Fin q /\
    ((r <= 1 # 10)%Q -> (q == 1)%Q) /\
    ((1 <= r)%Q -> (q == 10)%Q) /\
    (1 <= q <= 10)%Q.
Proof.
  intros Hr Hm.
  destruct (feedback_metrics_inv _ _ _ _ Hm) as (q0 & d & i & Hq & _ & _ & -> & _).
  rewrite Hr in Hq. injection Hq as <-. cbn [fmul].
  destruct (clamp_norm (r * 10)) as (q & Hq & H1 & H2 & H3).
  exists q. split; [exact Hq|].
  split; [intros H; apply H1; lra|]. split; [intros H; apply H3; lra|].
  destruct (Qlt_le_dec (r * 10) 1) as [L1|L1];
    [specialize (H1 ltac:(lra)); lra|].
  destruct (Qlt_le_dec 10 (r * 10)) as [L2|L2];
    [specialize (H3 ltac:(lra)); lra|].
  specialize (H2 ltac:(lra)). lra.
Qed.

Lemma quality_score_scale_witness :
  exists q, quality_score
              {| quality_score := Fin 10; delivery_score := Fin 8; price_score := Fin 7;
                 service_score := Fin 10; overall_score := Fin (35 # 4) |} = Fin q /\
    ((85 <= 1 # 10)%Q -> (q == 1)%Q) /\
    ((1 <= 85)%Q -> (q == 10)%Q) /\
    (1 <= q <= 10)%Q.
Proof.
  apply (quality_score_scale (VInt 85) (VInt 2) (VInt 0) 85);
    vm_compute; reflexivity.
Defined.

(** X2: the delivery score saturates: 1.0 from 9 days on and 10.0 for a
    delivery in no time or a negative number of days; every number of days
    gives a score from 1 to 10, and a missing, null or zero
    [delivery_time_days] counts as one day and scores 9.0. *)
Theorem delivery_score_scale (quality_rating delivery_time_days issues : value)
    (t : Q) (m : Metrics) :
  py_float (py_or delivery_time_days (VInt 1)) = Ok (Fin t) ->
  feedback_metrics quality_rating delivery_time_days issues = Ok m ->
  exists q, delivery_score m = Fin q /\
    ((9 <= t)%Q -> (q == 1)%Q) /\
    ((t <= 0)%Q -> (q == 10)%Q) /\
    (1 <= q <= 10)%Q /\
    (truthy delivery_time_days = false -> (q == 9)%Q).
Proof.
  intros Ht Hm.
  destruct (feedback_metrics_inv _ _ _ _ Hm) as (q0 & d & i & _ & Hd & _ & _ & -> & _).
  assert (Hdef : truthy delivery_time_days = false -> (t == 1)%Q).
  { intros Hf. unfold py_or in Ht. rewrite Hf in Ht. vm_compute in Ht.
    injection Ht as <-. reflexivity. }
  rewrite Ht in Hd. injection Hd as <-.
  unfold py_min. cbn [flt].
  destruct (Qltb 10 t) eqn:E.
  - apply Qltb_true in E. change (fsub (Fin 10) (Fin 10)) with (Fin 0).
    exists 1%Q. split; [vm_compute; reflexivity|].
    split; [intros; reflexivity|]. split; [intros; lra|]. split; [lra|].
    intros Hf. specialize (Hdef Hf). lra.
  - apply Qltb_false in E. unfold fsub. cbn [fneg fadd].
    destruct (clamp_norm (10 + Qred (- t))) as (q & Hq & H1 & H2 & H3).
    pose proof (Qred_correct (- t)) as Hred.
    exists q. split; [exact Hq|].
    split; [intros H; apply H1; lra|].
    split; [intros H; apply H3; lra|].
    split.
    + destruct (Qlt_le_dec 9 t) as [L1|L1]; [specialize (H1 ltac:(lra)); lra|].
      destruct (Qlt_le_dec t 0) as [L2|L2]; [specialize (H3 ltac:(lra)); lra|].
      specialize (H2 ltac:(lra)). lra.
    + intros Hf. specialize (Hdef Hf). specialize (H2 ltac:(lra)). lra.
Qed.

Lemma delivery_score_scale_witness :
  exists q, delivery_score
              {| quality_score := Fin 9; delivery_score := Fin 9; price_score := Fin 7;
                 service_score := Fin 10; overall_score := Fin (35 # 4) |} = Fin q /\
    ((9 <= 1)%Q -> (q == 1)%Q) /\
    ((1 <= 0)%Q -> (q == 10)%Q) /\
    (1 <= q <= 10)%Q /\
    (truthy (VInt 0) = false -> (q == 9)%Q).
Proof.
  apply (delivery_score_scale (VFloat (Fin (9 # 10))) (VInt 0) (VInt 0) 1);
    vm_compute; reflexivity.
Defined.

(** X3: the service score saturates: 1.0 from 4.5 issues on and 10.0 for
    no issue or a negative number of issues; every number of issues gives
    a score from 1 to 10. *)
Theorem service_score_scale (quality_rating delivery_time_days issues : value)
    (k : Q) (m : Metrics) :
  py_float issues = Ok (Fin k) ->
  feedback_metrics quality_rating delivery_time_days issues = Ok m ->
  exists q, service_score m = Fin q /\
    ((9 # 2 <= k)%Q -> (q == 1)%Q) /\
    ((k <= 0)%Q -> (q == 10)%Q) /\
    (1 <= q <= 10)%Q.
Proof.
  intros Hk Hm.
  destruct (feedback_metrics_inv _ _ _ _ Hm) as (q0 & d & i & _ & _ & Hi & _ & _ & _ & ->).
  rewrite Hk in Hi. injection Hi as <-. cbn [fmul]. unfold norm.
  pose proof threshold_large as T.
  destruct (Qle_bool (inject_Z overflow_threshold) (Qabs (k * 2))) eqn:E.
  - apply Qle_bool_iff in E. destruct (Qle_bool 0 (k * 2)) eqn:E0.
    + apply Qle_bool_iff in E0. rewrite (Qabs_pos _ E0) in E.
      exists 1%Q. split; [reflexivity|]. repeat split; intros; lra.
    + assert (H0 : (k * 2 < 0)%Q).
      { apply Qnot_le_lt. intros H. apply Qle_bool_iff in H. congruence. }
      exists 10%Q. split; [reflexivity|]. repeat split; intros; lra.
  - unfold fsub. cbn [fneg fadd].
    destruct (clamp_norm (10 + Qred (- Qred (k * 2)))) as (q & Hq & H1 & H2 & H3).
    assert (Hred : (Qred (- Qred (k * 2)) == - (k * 2))%Q)
      by (rewrite Qred_correct, Qred_correct; reflexivity).
    exists q. split; [exact Hq|].
    split; [intros H; apply H1; lra|].
    split; [intros H; apply H3; lra|].
    destruct (Qlt_le_dec (9 # 2) k) as [L1|L1]; [specialize (H1 ltac:(lra)); lra|].
    destruct (Qlt_le_dec k 0) as [L2|L2]; [specialize (H3 ltac:(lra)); lra|].
    specialize (H2 ltac:(lra)). lra.
Qed.

Lemma service_score_scale_witness :
  exists q, service_score
              {| quality_score := Fin 9; delivery_score := Fin 8; price_score := Fin 7;
                 service_score := Fin 1; overall_score := Fin (25 # 4) |} = Fin q /\
    ((9 # 2 <= 5)%Q -> (q == 1)%Q) /\
    ((5 <= 0)%Q -> (q == 10)%Q) /\
    (1 <= q <= 10)%Q.
Proof.
  apply (service_score_scale (VFloat (Fin (9 # 10))) (VInt 2) (VInt 5) 5);
    vm_compute; reflexivity.
Defined.

(** X4: whatever the feedback, as long as none of its numbers is NaN, the
    overall score lies between 2.5 and 9.25: the price score is the constant
    7.0 and the three other scores lie between 1 and 10. *)
Theorem overall_score_range (quality_rating delivery_time_days issues : value)
    (q d i : pyfloat) (m : Metrics) :
  py_float quality_rating = Ok q ->
  py_float (py_or delivery_time_days (VInt 1)) = Ok d ->
  py_float issues = Ok i ->
  q <> NaN -> d <> NaN -> i <> NaN ->
  feedback_metrics quality_rating delivery_time_days issues = Ok m ->
  price_score m = Fin 7 /\
  exists o, overall_score m = Fin o /\ (5 # 2 <= o <= 37 # 4)%Q.
Proof.
  intros Hq Hd Hi Nq Nd Ni Hm.
  destruct (feedback_metrics_inv _ _ _ _ Hm) as (_ & _ & _ & _ & _ & _ & _ & _ & Hp & _).
  split; [exact Hp|].
  destruct (feedback_metrics_clamped _ _ _ q d i Hq Hd Hi Nq Nd Ni)
    as (a & b & c & e & o & Heq & Ra & Rb & Rc & Re & Ro & Ho).
  rewrite Hm in Heq. injection Heq as ->. cbn [price_score] in Hp.
  injection Hp as Hc. cbn [overall_score].
  exists o. split; [reflexivity|].
  assert (Hc' : (c == 7)%Q) by (rewrite Hc; reflexivity).
  rewrite Ho. split.
  - apply Qle_shift_div_l; [reflexivity|]. lra.
  - apply Qle_shift_div_r; [reflexivity|]. lra.
Qed.

Lemma overall_score_range_witness :
  price_score
    {| quality_score := Fin 1; delivery_score := Fin 1; price_score := Fin 7;
       service_score := Fin 1; overall_score := Fin (5 # 2) |} = Fin 7 /\
  exists o,
    overall_score
      {| quality_score := Fin 1; delivery_score := Fin 1; price_score := Fin 7;
         service_score := Fin 1; overall_score := Fin (5 # 2) |} = Fin o /\
    (5 # 2 <= o <= 37 # 4)%Q.
Proof.
  apply (overall_score_range (VFloat (Fin (1 # 10))) (VInt 9) (VInt 5)
           (Fin (1 # 10)) (Fin 9) (Fin 5));
    try (vm_compute; reflexivity); discriminate.
Defined.

(** ** FeedbackView: errors and the Q-table *)

(** X7: the display name of a supplier record is the first value present
    among [company_name], [name] and the [name] of its [user] object, and
    the text "Unknown Supplier <id>" when there is none; this holds whenever
    the record has no [user] field or one that is an object. *)
Theorem company_name_fallback (d : list (string * value)) (supplier_id : value) :
  (assoc "user" d = None \/ exists u, assoc "user" d = Some (VDict u)) ->
  company_name_of (VDict d) supplier_id =
    Ok match assoc "company_name" d, assoc "name" d, assoc "user" d with
       | Some v, _, _ => Name v
       | None, Some v, _ => Name v
       | None, None, Some (VDict u) =>
           from_option Name (UnknownSupplier supplier_id) (assoc "name" u)
       | None, None, _ => UnknownSupplier supplier_id
       end.
Proof.
  intros Hu. unfold company_name_of. cbn [dict_get mbind result_bind rbind].
  destruct Hu as [-> | (u & ->)]; cbn [dict_get mbind result_bind rbind];
    destruct (assoc "company_name" d), (assoc "name" d); reflexivity.
Qed.

Lemma company_name_fallback_witness :
  company_name_of (VDict [("name", VStr "Beta"); ("user", VDict [("name", VStr "B. User")])])
    (VInt 2) = Ok (Name (VStr "Beta")) /\
  company_name_of (VDict [("user", VDict [("name", VStr "B. User")])])
    (VInt 2) = Ok (Name (VStr "B. User")) /\
  company_name_of (VDict [("city", VStr "Kandy")]) (VInt 2) = Ok (UnknownSupplier (VInt 2)).
Proof.
  split; [|split].
  - apply (company_name_fallback
             [("name", VStr "Beta"); ("user", VDict [("name", VStr "B. User")])] (VInt 2)).
    right. eexists. reflexivity.
  - apply (company_name_fallback [("user", VDict [("name", VStr "B. User")])] (VInt 2)).
    right. eexists. reflexivity.
  - apply (company_name_fallback [("city", VStr "Kandy")] (VInt 2)).
    left. reflexivity.
Defined.

Section feedback_effects.
Variable get_supplier : value -> result value.
Variable get_state_from_metrics : Metrics -> result QLearningState.
Variable get_actions : QLearningState -> result (list QLearningAction).
Variable get_reward : value -> QLearningState -> QLearningAction -> result Q.
Variable next_state : value -> QLearningAction -> result QLearningState.
Variable learn : QLearningState -> QLearningAction -> Q -> QLearningState ->
                 QTable -> result Q * QTable.

Local Abbreviation post :=
  (FeedbackView.post get_supplier get_state_from_metrics get_actions
     get_reward next_state learn).

(** X5: the feedback view writes the Q-table through at most one call of
    the learning step: the table it leaves is the table it was given or the
    table left by one learning step on it, whether the view answers or
    raises. *)
Theorem feedback_writes_only_through_learn (data : gmap string value) (qt : QTable) :
  (post data qt).2 = qt \/
  exists state action reward next,
    (post data qt).2 = (learn state action reward next qt).2.
Proof.
  unfold FeedbackView.post.
  destruct (negb (py_all _)); [left; reflexivity|].
  destruct (get_supplier _) as [supplier|]; [|left; reflexivity].
  destruct (negb (truthy supplier)); [left; reflexivity|].
  destruct (feedback_metrics _ _ _) as [metrics|]; cbn [mbind result_bind rbind];
    [|left; reflexivity].
  destruct (get_state_from_metrics metrics) as [state|]; cbn [mbind result_bind rbind];
    [|left; reflexivity].
  destruct (get_actions state) as [actions|]; cbn [mbind result_bind rbind];
    [|left; reflexivity].
  destruct (rank_tier_action actions) as [action|]; [|left; reflexivity].
  unfold FeedbackView.update_q_value.
  destruct (get_reward _ state action) as [reward|]; cbn [mbind result_bind rbind];
    [|left; reflexivity].
  destruct (next_state _ action) as [next|]; cbn [mbind result_bind rbind];
    [|left; reflexivity].
  right. exists state, action, reward, next.
  destruct (learn state action reward next qt). reflexivity.
Qed.

(** X6: when the quality rating of a feedback for a known supplier passes
    the required-field check but is not a number ([float] raises), the
    exception leaves the view, no 400 is answered, and the Q-table is the
    one the view was given, whatever the learning step is. *)
Theorem feedback_rating_not_a_number
    (data : gmap string value) (qt : QTable) (supplier : value) (e : exn) :
  py_all [data_get data "supplier_id" VNone; data_get data "product_id" VNone;
          data_get data "quality_rating" VNone] = true ->
  get_supplier (data_get data "supplier_id" VNone) = Ok supplier ->
  truthy supplier = true ->
  py_float (data_get data "quality_rating" VNone) = Raise e ->
  forall learn',
    FeedbackView.post get_supplier get_state_from_metrics get_actions
      get_reward next_state learn' data qt = (Raise e, qt).
Proof.
  intros Hv Hs Ht Hq learn'. unfold FeedbackView.post.
  rewrite Hv, Hs, Ht. cbn [negb]. unfold feedback_metrics. rewrite Hq. reflexivity.
Qed.

(** X8: a supplier record whose [user] field is present but is not an
    object (null, say) makes the view raise AttributeError while it builds
    the response, after the learning step has run: the Q-table has been
    updated although the request fails, and this even when the record has a
    [company_name]. *)
Theorem feedback_fails_after_learning
    (data : gmap string value) (qt qt' : QTable) (d : list (string * value))
    (u : value) (metrics : Metrics) (state next : QLearningState)
    (actions : list QLearningAction) (action : QLearningAction) (reward v : Q) :
  py_all [data_get data "supplier_id" VNone; data_get data "product_id" VNone;
          data_get data "quality_rating" VNone] = true ->
  get_supplier (data_get data "supplier_id" VNone) = Ok (VDict d) ->
  assoc "user" d = Some u ->
  (forall x, u <> VDict x) ->
  feedback_metrics (data_get data "quality_rating" VNone)
    (data_get data "delivery_time_days" VNone)
    (data_get data "issues" (VInt 0)) = Ok metrics ->
  get_state_from_metrics metrics = Ok state ->
  get_actions state = Ok actions ->
  rank_tier_action actions = Some action ->
  get_reward (data_get data "supplier_id" VNone) state action = Ok reward ->
  next_state (data_get data "supplier_id" VNone) action = Ok next ->
  learn state action reward next qt = (Ok v, qt') ->
  post data qt = (Raise AttributeError, qt').
Proof.
  intros Hv Hs Hu Hnd Hm Hst Ha Hact Hr Hn Hl.
  assert (Ht : truthy (VDict d) = true) by (destruct d; [discriminate Hu | reflexivity]).
  unfold FeedbackView.post. rewrite Hv, Hs, Ht. cbn [negb]. rewrite Hm.
  cbn [mbind result_bind rbind]. rewrite Hst. cbn [mbind result_bind rbind].
  rewrite Ha. cbn [mbind result_bind rbind]. rewrite Hact.
  unfold FeedbackView.update_q_value. rewrite Hr. cbn [mbind result_bind rbind].
  rewrite Hn. cbn [mbind result_bind rbind]. rewrite Hl.
  cbn [mbind result_bind rbind]. unfold company_name_of.
  cbn [dict_get mbind result_bind rbind]. rewrite Hu.
  destruct u; try reflexivity. exfalso. eapply Hnd. reflexivity.
Qed.
End feedback_effects.

Lemma feedback_rating_not_a_number_witness :
  Sample.post (<["quality_rating" := VStr "good"]> Sample.feedback) Sample.qt1 =
    (Raise ValueError, Sample.qt1).
Proof.
  refine (feedback_rating_not_a_number Sample.get_supplier Sample.get_state_from_metrics
            Sample.get_actions Sample.get_reward Sample.next_state
            (<["quality_rating" := VStr "good"]> Sample.feedback) Sample.qt1
            (VDict [("company_name", VStr "Acme"); ("city", VStr "Colombo")])
            ValueError _ _ _ _ Sample.learn); vm_compute; reflexivity.
Defined.

Lemma feedback_fails_after_learning_witness :
  Sample2.post Sample2.feedback_null_user Sample.qt1 =
    (Raise AttributeError,
     (Sample.learn {| state_name := "HIGH" |} {| action_name := "RANK_TIER_1" |} 8%Q
        {| state_name := "HIGH" |} Sample.qt1).2) /\
  updates (Sample.learn {| state_name := "HIGH" |} {| action_name := "RANK_TIER_1" |} 8%Q
             {| state_name := "HIGH" |} Sample.qt1).2 ("HIGH", "RANK_TIER_1") = 4%nat /\
  updates Sample.qt1 ("HIGH", "RANK_TIER_1") = 3%nat.
Proof.
  split; [|split; vm_compute; reflexivity].
  assert (H1 : py_all [data_get Sample2.feedback_null_user "supplier_id" VNone;
                       data_get Sample2.feedback_null_user "product_id" VNone;
                       data_get Sample2.feedback_null_user "quality_rating" VNone] = true)
    by (vm_compute; reflexivity).
  assert (H2 : Sample2.get_supplier (data_get Sample2.feedback_null_user "supplier_id" VNone)
               = Ok (VDict [("company_name", VStr "Epsilon"); ("user", VNone)]))
    by (vm_compute; reflexivity).
  assert (H3 : feedback_metrics (data_get Sample2.feedback_null_user "quality_rating" VNone)
                 (data_get Sample2.feedback_null_user "delivery_time_days" VNone)
                 (data_get Sample2.feedback_null_user "issues" (VInt 0)) =
               Ok {| quality_score := Fin 9; delivery_score := Fin 9; price_score := Fin 7;
                     service_score := Fin 10; overall_score := Fin (35 # 4) |})
    by (vm_compute; reflexivity).
  assert (H4 : Sample.get_reward (data_get Sample2.feedback_null_user "supplier_id" VNone)
                 {| state_name := "HIGH" |} {| action_name := "RANK_TIER_1" |} = Ok 8%Q)
    by reflexivity.
  assert (H5 : Sample.next_state (data_get Sample2.feedback_null_user "supplier_id" VNone)
                 {| action_name := "RANK_TIER_1" |} = Ok {| state_name := "HIGH" |})
    by reflexivity.
  assert (H6 : Sample.learn {| state_name := "HIGH" |} {| action_name := "RANK_TIER_1" |}
                 8%Q {| state_name := "HIGH" |} Sample.qt1 =
               (Ok (146 # 25)%Q,
                (Sample.learn {| state_name := "HIGH" |} {| action_name := "RANK_TIER_1" |}
                   8%Q {| state_name := "HIGH" |} Sample.qt1).2)).
  { assert (Hv : (Sample.learn {| state_name := "HIGH" |}
                    {| action_name := "RANK_TIER_1" |} 8%Q {| state_name := "HIGH" |}
                    Sample.qt1).1 = Ok (146 # 25)%Q) by (vm_compute; reflexivity).
    destruct (Sample.learn _ _ _ _ _) as [learned table]. cbn [fst snd] in *.
    rewrite Hv. reflexivity. }
  exact (feedback_fails_after_learning Sample2.get_supplier Sample.get_state_from_metrics
           Sample.get_actions Sample.get_reward Sample.next_state Sample.learn
           Sample2.feedback_null_user Sample.qt1 _
           [("company_name", VStr "Epsilon"); ("user", VNone)] VNone
           {| quality_score := Fin 9; delivery_score := Fin 9; price_score := Fin 7;
              service_score := Fin 10; overall_score := Fin (35 # 4) |}
           {| state_name := "HIGH" |} {| state_name := "HIGH" |}
           [ {| action_name := "HOLD" |}; {| action_name := "RANK_TIER_1" |};
             {| action_name := "RANK_TIER_2" |} ]
           {| action_name := "RANK_TIER_1" |} 8%Q (146 # 25)%Q
           H1 H2 eq_refl ltac:(discriminate) H3 eq_refl eq_refl eq_refl H4 H5 H6).
Defined.

(** ** SupplierRankingView *)

Section ranking_more.
Variable get_suppliers_by_product : string -> result (list Z).
Variable get_supplier : value -> result value.
Variable rank_supplier :
  Draw -> Z -> bool -> bool -> QTable ->
  result (QLearningAction * Q * option Ranking).
Variable rng : nat -> Draw.
Variable qt : QTable.

Local Abbreviation get :=
  (SupplierRankingView.get get_suppliers_by_product get_supplier rank_supplier).
Local Abbreviation rank_loop :=
  (SupplierRankingView.rank_loop get_supplier rank_supplier).

(** The loop completes only if the directory answered for every candidate. *)
Lemma rank_loop_lookups (city : option string) (suppliers : list Z) :
  forall (i : nat) (ranked : list RankedSupplier),
  rank_loop city rng qt i suppliers = Ok ranked ->
  Forall (fun sid => exists v, get_supplier (VInt sid) = Ok v) suppliers.
Proof.
  induction suppliers as [|sid rest IH]; intros i ranked H; [constructor|].
  destruct (rank_loop_cons _ _ _ _ _ _ _ _ _ H) as (rows & Hrows & _).
  constructor; [|exact (IH _ _ Hrows)].
  cbn [SupplierRankingView.rank_loop] in H.
  destruct (get_supplier (VInt sid)) as [v|]; [eauto | discriminate].
Qed.

(** The shapes of the answers of the view to a query with a product and a
    non-empty candidate listing. *)
Lemma get_shape (city : option string) (product_id : option string)
    (suppliers : list Z) :
  param_truthy product_id = true ->
  get_suppliers_by_product (default "" product_id) = Ok suppliers ->
  suppliers <> [] ->
  match rank_loop city rng qt 0 suppliers with
  | Ok ranked =>
      get city rng qt product_id =
        Success {| rb_product_id := default "" product_id;
                   rb_city := city;
                   rb_suppliers := sort_desc rs_score ranked;
                   rb_count := length (sort_desc rs_score ranked) |}
  | Raise e =>
      get city rng qt product_id =
        Failure HTTP_500_INTERNAL_SERVER_ERROR (RankingFailed e)
  end.
Proof.
  intros Hp Hs Hne. destruct suppliers as [|s rest]; [congruence|].
  destruct (rank_loop city rng qt 0 (s :: rest)) as [ranked|e] eqn:E;
    unfold SupplierRankingView.get; rewrite Hp, Hs; cbn [negb mbind result_bind rbind];
    rewrite E; reflexivity.
Qed.

Lemma get_success_inv (city : option string) (product_id : option string)
    (body : RankingBody) :
  get city rng qt product_id = Success body ->
  param_truthy product_id = true /\
  exists suppliers ranked,
    get_suppliers_by_product (default "" product_id) = Ok suppliers /\
    suppliers <> [] /\
    rank_loop city rng qt 0 suppliers = Ok ranked /\
    body = {| rb_product_id := default "" product_id;
              rb_city := city;
              rb_suppliers := sort_desc rs_score ranked;
              rb_count := length (sort_desc rs_score ranked) |}.
Proof.
  intros Hget.
  destruct (param_truthy product_id) eqn:Hp;
    [|unfold SupplierRankingView.get in Hget; rewrite Hp in Hget; discriminate Hget].
  split; [reflexivity|].
  destruct (get_suppliers_by_product (default "" product_id)) as [suppliers|e] eqn:Hs;
    [|unfold SupplierRankingView.get in Hget; rewrite Hp, Hs in Hget;
      discriminate Hget].
  destruct suppliers as [|s rest];
    [unfold SupplierRankingView.get in Hget; rewrite Hp, Hs in Hget;
     discriminate Hget|].
  pose proof (get_shape city product_id (s :: rest) Hp Hs ltac:(discriminate)) as Hshape.
  destruct (rank_loop city rng qt 0 (s :: rest)) as [ranked|e] eqn:Hr;
    rewrite Hshape in Hget; [|discriminate Hget].
  injection Hget as <-. exists (s :: rest), ranked.
  split; [reflexivity|]. split; [discriminate|]. split; [exact Hr | reflexivity].
Qed.

(** X9: a ranking query is all or nothing: when the directory lookup of one
    candidate raises, the answer is status 500 and no supplier is returned,
    however many other candidates could be ranked. *)
Theorem ranking_fails_on_one_lookup (city : option string) (product_id : option string)
    (suppliers : list Z) (sid : Z) (e : exn) :
  param_truthy product_id = true ->
  get_suppliers_by_product (default "" product_id) = Ok suppliers ->
  In sid suppliers ->
  get_supplier (VInt sid) = Raise e ->
  exists e', get city rng qt product_id =
               Failure HTTP_500_INTERNAL_SERVER_ERROR (RankingFailed e').
Proof.
  intros Hp Hs Hin He.
  assert (Hne : suppliers <> []) by (intros ->; destruct Hin).
  pose proof (get_shape city product_id suppliers Hp Hs Hne) as Hshape.
  destruct (rank_loop city rng qt 0 suppliers) as [ranked|e'] eqn:Hloop; [|eauto].
  exfalso. pose proof (rank_loop_lookups _ _ _ _ Hloop) as Hall.
  rewrite List.Forall_forall in Hall. destruct (Hall sid Hin) as [v Hv]. congruence.
Qed.

(** The loop completes only if the city of every candidate that resolved
    could be read. *)
Lemma rank_loop_cities (city : option string) (suppliers : list Z) :
  forall (i : nat) (ranked : list RankedSupplier),
  rank_loop city rng qt i suppliers = Ok ranked ->
  Forall (fun sid => forall v, get_supplier (VInt sid) = Ok v -> truthy v = true ->
                     exists sc, supplier_city v = Ok sc) suppliers.
Proof.
  induction suppliers as [|sid rest IH]; intros i ranked H; [constructor|].
  destruct (rank_loop_cons _ _ _ _ _ _ _ _ _ H) as (rows & Hrows & _).
  constructor; [|exact (IH _ _ Hrows)].
  intros v Hv Ht. cbn [SupplierRankingView.rank_loop] in H.
  rewrite Hv in H. cbn [mbind result_bind rbind] in H. rewrite Ht in H.
  cbn [negb] in H.
  destruct (supplier_city v) as [sc|]; [eauto | discriminate].
Qed.

(** Line 170 on a record without a top-level city whose [user] is null:
    the default [{}] is not used, and [None.get] raises. *)
Lemma supplier_city_null_user (supplier : value) :
  no_city_null_user supplier -> supplier_city supplier = Raise AttributeError.
Proof.
  intros (d & -> & Hc & Hu). unfold supplier_city. cbn. rewrite Hc. cbn.
  rewrite Hu. reflexivity.
Qed.

(** C10, failing on a null user: a candidate whose record has no city at
    all, no top-level [city] field and ["user": null], is not let through
    by the city filter.  Reading its city raises [AttributeError] at line
    170, and whatever city is requested the whole query is answered with
    status 500 and no supplier, instead of a ranking that includes the
    candidate. *)
Theorem city_filter_fails_on_null_user (city : option string)
    (product_id : option string) (suppliers : list Z) (sid : Z) (supplier : value) :
  param_truthy product_id = true ->
  get_suppliers_by_product (default "" product_id) = Ok suppliers ->
  In sid suppliers ->
  get_supplier (VInt sid) = Ok supplier ->
  no_city_null_user supplier ->
  supplier_city supplier = Raise AttributeError /\
  exists e, get city rng qt product_id =
              Failure HTTP_500_INTERNAL_SERVER_ERROR (RankingFailed e).
Proof.
  intros Hp Hs Hin Hv Hn.
  pose proof (supplier_city_null_user _ Hn) as Hc. split; [exact Hc|].
  assert (Hne : suppliers <> []) by (intros ->; destruct Hin).
  pose proof (get_shape city product_id suppliers Hp Hs Hne) as Hshape.
  destruct (rank_loop city rng qt 0 suppliers) as [ranked|e'] eqn:Hloop; [|eauto].
  exfalso. pose proof (rank_loop_cities _ _ _ _ Hloop) as Hall.
  rewrite List.Forall_forall in Hall.
  assert (Ht : truthy supplier = true).
  { destruct Hn as (d & -> & _ & Hu). destruct d; [discriminate Hu | reflexivity]. }
  destruct (Hall sid Hin supplier Hv Ht) as [sc Hsc]. congruence.
Qed.


(** X10: a ranking response never has more suppliers than the candidate
    listing, and its count is the length of its list. *)
Theorem ranking_count_bounded (city : option string) (product_id : option string)
    (body : RankingBody) (suppliers : list Z) :
  get city rng qt product_id = Success body ->
  get_suppliers_by_product (default "" product_id) = Ok suppliers ->
  rb_count body = length (rb_suppliers body) /\
  (length (rb_suppliers body) <= length suppliers)%nat.
Proof.
  intros Hget Hs.
  destruct (get_success _ _ _ _ _ _ _ _ Hget) as (suppliers' & ranked & Hs' & Hloop & ->).
  rewrite Hs in Hs'. injection Hs' as <-. cbn [rb_count rb_suppliers].
  split; [reflexivity|]. rewrite sort_desc_length.
  destruct (rank_loop_order _ _ _ _ _ _ _ _ Hloop) as (kept & Hsub & Hall).
  rewrite <- (Forall2_length _ _ _ Hall).
  apply sublist_length in Hsub. rewrite length_zip, length_seq in Hsub. lia.
Qed.

(** X11: the q_value of every returned row is the value stored in the
    Q-table under the row's state and best action, 0.0 when the table has no
    entry for them. *)
Theorem ranking_rows_report_stored_value (city : option string)
    (product_id : option string) (body : RankingBody) :
  get city rng qt product_id = Success body ->
  Forall (fun row =>
            rs_q_value row = (stored_pair qt (rs_state row, rs_best_action row)).1)
         (rb_suppliers body).
Proof.
  intros Hget.
  destruct (get_success _ _ _ _ _ _ _ _ Hget) as (suppliers & ranked & _ & Hloop & ->).
  cbn [rb_suppliers].
  destruct (rank_loop_order _ _ _ _ _ _ _ _ Hloop) as (kept & _ & Hall).
  assert (Hranked : Forall (fun row =>
            rs_q_value row = (stored_pair qt (rs_state row, rs_best_action row)).1)
            ranked).
  { clear Hloop Hget. induction Hall as [|c row kept ranked Hrow _ IH]; constructor;
      [|exact IH].
    destruct Hrow as (supplier & sc & a & r & rk & _ & _ & _ & ->).
    cbn. unfold stored_q_value, stored_pair, qkey.
    destruct (qt !! _); reflexivity. }
  rewrite List.Forall_forall in *. intros row Hin. apply Hranked.
  apply sort_desc_In in Hin. exact Hin.
Qed.

(** The filter decides the same for two requested cities that are equal up
    to case. *)
Lemma city_excluded_case (c1 c2 : string) (sc : value) :
  c1 <> "" -> c2 <> "" -> str_lower c1 = str_lower c2 ->
  city_excluded (Some c1) sc = city_excluded (Some c2) sc.
Proof.
  intros H1 H2 Hl. apply String.eqb_neq in H1, H2.
  unfold city_excluded, param_truthy. rewrite H1, H2. cbn [negb andb from_option id].
  rewrite Hl. reflexivity.
Qed.

(** X12: the city filter does not see the case of the requested city: two
    queries whose cities differ only in case return the same suppliers in
    the same order. *)
Theorem ranking_city_case_insensitive (c1 c2 : string) (product_id : option string)
    (body : RankingBody) :
  c1 <> "" -> c2 <> "" -> str_lower c1 = str_lower c2 ->
  get (Some c1) rng qt product_id = Success body ->
  get (Some c2) rng qt product_id =
    Success {| rb_product_id := rb_product_id body;
               rb_city := Some c2;
               rb_suppliers := rb_suppliers body;
               rb_count := rb_count body |}.
Proof.
  intros H1 H2 Hl Hget.
  assert (Hloop : forall suppliers i,
            rank_loop (Some c1) rng qt i suppliers = rank_loop (Some c2) rng qt i suppliers).
  { induction suppliers as [|sid rest IH]; intros i; [reflexivity|].
    cbn [SupplierRankingView.rank_loop].
    destruct (get_supplier (VInt sid)) as [supplier|]; [|reflexivity].
    cbn [mbind result_bind rbind]. rewrite !IH.
    destruct (negb (truthy supplier)); [reflexivity|].
    destruct (supplier_city supplier) as [sc|]; [|reflexivity].
    cbn [mbind result_bind rbind].
    rewrite (city_excluded_case c1 c2 sc H1 H2 Hl). reflexivity. }
  destruct (get_success_inv _ _ _ Hget) as (Hp & suppliers & ranked & Hs & Hne & Hr & ->).
  cbn [rb_product_id rb_suppliers rb_count].
  pose proof (get_shape (Some c2) product_id suppliers Hp Hs Hne) as Hshape.
  rewrite <- Hloop, Hr in Hshape. exact Hshape.
Qed.

(** Every row of the loop belongs to a supplier the filter let through. *)
Lemma rank_loop_filtered (city : option string) (suppliers : list Z) :
  forall (i : nat) (ranked : list RankedSupplier),
  rank_loop city rng qt i suppliers = Ok ranked ->
  Forall (fun row => city_excluded city (rs_city row) = Ok false) ranked.
Proof.
  induction suppliers as [|sid rest IH]; intros i ranked.
  - intros [= <-]. constructor.
  - cbn [SupplierRankingView.rank_loop].
    destruct (get_supplier (VInt sid)) as [supplier|]; cbn [mbind result_bind rbind];
      [|discriminate].
    destruct (negb (truthy supplier)); [apply IH|].
    destruct (supplier_city supplier) as [sc|]; cbn [mbind result_bind rbind];
      [|discriminate].
    destruct (city_excluded city sc) as [[|]|] eqn:He; cbn [mbind result_bind rbind];
      [apply IH| |discriminate].
    destruct (rank_supplier (rng i) sid true false qt) as [[[a r] [rk|]]|];
      cbn [mbind result_bind rbind]; [|apply IH|discriminate].
    destruct (rank_loop city rng qt (S i) rest) as [rows|] eqn:Hrest;
      cbn [mbind result_bind rbind]; [|discriminate].
    intros [= <-]. constructor; [exact He | exact (IH _ _ Hrest)].
Qed.

(** X23: with a city filter spelled in ASCII, every supplier of the
    response whose city is spelled in ASCII has the requested one up to
    case: no supplier of another such city is ever returned. *)
Theorem ranking_rows_match_city (c : string) (product_id : option string)
    (body : RankingBody) (row : RankedSupplier) (s : string) :
  c <> "" ->
  is_ascii c = true ->
  get (Some c) rng qt product_id = Success body ->
  In row (rb_suppliers body) ->
  rs_city row = VStr s ->
  s <> "" ->
  is_ascii s = true ->
  str_lower s = str_lower c.
Proof.
  intros Hc _ Hget Hin Hs Hne _.
  destruct (get_success_inv _ _ _ Hget) as (_ & suppliers & ranked & _ & _ & Hloop & ->).
  cbn [rb_suppliers] in Hin. apply sort_desc_In in Hin.
  pose proof (rank_loop_filtered _ _ _ _ Hloop) as Hall.
  rewrite List.Forall_forall in Hall. specialize (Hall row Hin).
  rewrite Hs in Hall. unfold city_excluded, param_truthy in Hall.
  apply String.eqb_neq in Hc, Hne. cbn [truthy from_option id] in Hall.
  rewrite Hc, Hne in Hall. cbn [negb andb] in Hall.
  injection Hall as Hall. apply negb_false_iff in Hall.
  apply String.eqb_eq. exact Hall.
Qed.

(** X13: candidates that the directory does not know are dropped silently:
    when no candidate of a non-empty listing resolves, the answer is a
    success with an empty list and count 0, not the no-suppliers message. *)
Theorem ranking_unresolved_candidates_dropped (city : option string)
    (product_id : option string) (suppliers : list Z) :
  param_truthy product_id = true ->
  get_suppliers_by_product (default "" product_id) = Ok suppliers ->
  suppliers <> [] ->
  Forall (fun sid => exists v, get_supplier (VInt sid) = Ok v /\ truthy v = false)
         suppliers ->
  get city rng qt product_id =
    Success {| rb_product_id := default "" product_id;
               rb_city := city;
               rb_suppliers := [];
               rb_count := 0 |}.
Proof.
  intros Hp Hs Hne Hall.
  assert (Hloop : forall i, rank_loop city rng qt i suppliers = Ok []).
  { clear Hs Hne. induction Hall as [|sid rest (v & Hv & Hf) _ IH]; intros i;
      [reflexivity|].
    cbn [SupplierRankingView.rank_loop]. rewrite Hv. cbn [mbind result_bind rbind].
    rewrite Hf. cbn [negb]. apply IH. }
  pose proof (get_shape city product_id suppliers Hp Hs Hne) as Hshape.
  rewrite Hloop in Hshape. exact Hshape.
Qed.
End ranking_more.

(** [?product_id=P5&city=kandy]: the candidates are supplier 3, which has
    no city and would be ranked, and supplier 5, whose record is
    [{"company_name": "Epsilon", "user": null}]; the answer is the failure
    with [AttributeError], while the same query for P6, whose only
    candidate is supplier 3, returns supplier 3. *)
Lemma city_filter_fails_on_null_user_witness :
  no_city_null_user (VDict [("company_name", VStr "Epsilon"); ("user", VNone)]) /\
  supplier_city (VDict [("company_name", VStr "Epsilon"); ("user", VNone)]) =
    Raise AttributeError /\
  SupplierRankingView.get Sample2.get_suppliers_by_product Sample2.get_supplier
    Sample.rank_supplier (Some "kandy") Sample.no_draw Sample.qt1 (Some "P5") =
    Failure HTTP_500_INTERNAL_SERVER_ERROR (RankingFailed AttributeError) /\
  (exists e,
     SupplierRankingView.get Sample2.get_suppliers_by_product Sample2.get_supplier
       Sample.rank_supplier (Some "kandy") Sample.no_draw Sample.qt1 (Some "P5") =
       Failure HTTP_500_INTERNAL_SERVER_ERROR (RankingFailed e)) /\
  match SupplierRankingView.get Sample2.get_suppliers_by_product Sample2.get_supplier
          Sample.rank_supplier (Some "kandy") Sample.no_draw Sample.qt1 (Some "P6") with
  | Success body => map rs_supplier_id (rb_suppliers body) = [3]
  | _ => False
  end.
Proof.
  assert (Hn : no_city_null_user
                 (VDict [("company_name", VStr "Epsilon"); ("user", VNone)])).
  { eexists. split; [reflexivity|]. split; reflexivity. }
  split; [exact Hn|].
  destruct (city_filter_fails_on_null_user Sample2.get_suppliers_by_product
              Sample2.get_supplier Sample.rank_supplier Sample.no_draw Sample.qt1
              (Some "kandy") (Some "P5") [3; 5] 5
              (VDict [("company_name", VStr "Epsilon"); ("user", VNone)])
              eq_refl eq_refl ltac:(right; left; reflexivity) eq_refl Hn)
    as [Hc He].
  split; [exact Hc|]. split; [vm_compute; reflexivity|].
  split; [exact He | vm_compute; reflexivity].
Defined.

Lemma ranking_fails_on_one_lookup_witness :
  exists e',
    SupplierRankingView.get Sample2.get_suppliers_by_product Sample2.get_supplier
      Sample.rank_supplier None Sample.no_draw Sample.qt1 (Some "P3") =
    Failure HTTP_500_INTERNAL_SERVER_ERROR (RankingFailed e').
Proof.
  apply (ranking_fails_on_one_lookup Sample2.get_suppliers_by_product Sample2.get_supplier
           Sample.rank_supplier Sample.no_draw Sample.qt1 None (Some "P3") [1; 6] 6
           (ServiceError "directory unavailable")).
  - reflexivity.
  - reflexivity.
  - right. left. reflexivity.
  - reflexivity.
Defined.

Lemma ranking_count_bounded_witness :
  exists body,
    SupplierRankingView.get Sample.get_suppliers_by_product Sample.get_supplier
      Sample.rank_supplier (Some "kandy") Sample.no_draw Sample.qt1 (Some "P1")
      = Success body /\
    rb_count body = length (rb_suppliers body) /\
    (length (rb_suppliers body) <= length [3; 2; 1])%nat.
Proof.
  eexists.
  assert (H : SupplierRankingView.get Sample.get_suppliers_by_product Sample.get_supplier
                Sample.rank_supplier (Some "kandy") Sample.no_draw Sample.qt1 (Some "P1")
              = Success _) by (vm_compute; reflexivity).
  split; [exact H|].
  exact (ranking_count_bounded Sample.get_suppliers_by_product Sample.get_supplier
           Sample.rank_supplier Sample.no_draw Sample.qt1 (Some "kandy") (Some "P1")
           _ [3; 2; 1] H eq_refl).
Defined.

Lemma ranking_rows_report_stored_value_witness :
  exists body,
    SupplierRankingView.get Sample.get_suppliers_by_product Sample.get_supplier
      Sample.rank_supplier None Sample.no_draw Sample.qt1 (Some "P2") = Success body /\
    map (fun row => (rs_state row, rs_best_action row, rs_q_value row)) (rb_suppliers body)
      = [("HIGH", "RANK_TIER_2", 6%Q); ("LOW", "HOLD", 0%Q)] /\
    Forall (fun row =>
              rs_q_value row =
                (stored_pair Sample.qt1 (rs_state row, rs_best_action row)).1)
           (rb_suppliers body).
Proof.
  eexists.
  assert (H : SupplierRankingView.get Sample.get_suppliers_by_product Sample.get_supplier
                Sample.rank_supplier None Sample.no_draw Sample.qt1 (Some "P2")
              = Success _) by (vm_compute; reflexivity).
  split; [exact H|]. split; [reflexivity|].
  exact (ranking_rows_report_stored_value Sample.get_suppliers_by_product
           Sample.get_supplier Sample.rank_supplier Sample.no_draw Sample.qt1 None
           (Some "P2") _ H).
Defined.

Lemma ranking_city_case_insensitive_witness :
  exists body,
    SupplierRankingView.get Sample.get_suppliers_by_product Sample.get_supplier
      Sample.rank_supplier (Some "kandy") Sample.no_draw Sample.qt1 (Some "P1")
      = Success body /\
    SupplierRankingView.get Sample.get_suppliers_by_product Sample.get_supplier
      Sample.rank_supplier (Some "KANDY") Sample.no_draw Sample.qt1 (Some "P1")
      = Success {| rb_product_id := rb_product_id body;
                   rb_city := Some "KANDY";
                   rb_suppliers := rb_suppliers body;
                   rb_count := rb_count body |}.
Proof.
  eexists.
  assert (H : SupplierRankingView.get Sample.get_suppliers_by_product Sample.get_supplier
                Sample.rank_supplier (Some "kandy") Sample.no_draw Sample.qt1 (Some "P1")
              = Success _) by (vm_compute; reflexivity).
  split; [exact H|].
  refine (ranking_city_case_insensitive Sample.get_suppliers_by_product
            Sample.get_supplier Sample.rank_supplier Sample.no_draw Sample.qt1
            "kandy" "KANDY" (Some "P1") _ _ _ _ H);
    [discriminate | discriminate | reflexivity].
Defined.

Lemma ranking_unresolved_candidates_dropped_witness :
  SupplierRankingView.get Sample2.get_suppliers_by_product Sample2.get_supplier
    Sample.rank_supplier None Sample.no_draw Sample.qt1 (Some "P4") =
  Success {| rb_product_id := "P4"; rb_city := None; rb_suppliers := []; rb_count := 0 |}.
Proof.
  apply (ranking_unresolved_candidates_dropped Sample2.get_suppliers_by_product
           Sample2.get_supplier Sample.rank_supplier Sample.no_draw Sample.qt1 None
           (Some "P4") [98; 99]).
  - reflexivity.
  - reflexivity.
  - discriminate.
  - repeat constructor; eexists; split; reflexivity.
Defined.

Lemma ranking_rows_match_city_witness :
  str_lower "Kandy" = str_lower "kandy".
Proof.
  assert (H : SupplierRankingView.get Sample.get_suppliers_by_product Sample.get_supplier
                Sample.rank_supplier (Some "kandy") Sample.no_draw Sample.qt1 (Some "P1")
              = Success
                  {| rb_product_id := "P1"; rb_city := Some "kandy";
                     rb_suppliers :=
                       [ ranked_supplier Sample.qt1
                           {| rk_supplier_id := 3; rk_supplier_name := "Gamma";
                              rk_overall_score := 12;
                              rk_state := {| state_name := "HIGH" |} |}
                           {| action_name := "RANK_TIER_2" |} VNone;
                         ranked_supplier Sample.qt1
                           {| rk_supplier_id := 2; rk_supplier_name := "Beta";
                              rk_overall_score := 12;
                              rk_state := {| state_name := "HIGH" |} |}
                           {| action_name := "RANK_TIER_2" |} (VStr "Kandy") ];
                     rb_count := 2 |}) by (vm_compute; reflexivity).
  refine (ranking_rows_match_city Sample.get_suppliers_by_product Sample.get_supplier
            Sample.rank_supplier Sample.no_draw Sample.qt1 "kandy" (Some "P1") _
            (ranked_supplier Sample.qt1
               {| rk_supplier_id := 2; rk_supplier_name := "Beta";
                  rk_overall_score := 12; rk_state := {| state_name := "HIGH" |} |}
               {| action_name := "RANK_TIER_2" |} (VStr "Kandy"))
            "Kandy" _ eq_refl H _ eq_refl _ eq_refl).
  - discriminate.
  - right. left. reflexivity.
  - discriminate.
Defined.

(** ** ManualTrainingView *)


(** X15: a training request that names neither [iterations] nor
    [supplier_ids] runs the batch with 100 iterations and no restriction,
    and reports 100 iterations over "all" suppliers; what the batch wrote
    is committed unless a database error has marked the transaction. *)
Theorem training_defaults
    (batch_train : Z -> value -> Transaction -> result unit * Transaction)
    (data : gmap string value) (qt : QTable) (tx : Transaction) :
  data !! "iterations" = None ->
  data !! "supplier_ids" = None ->
  batch_train 100 VNone (begin_transaction qt) = (Ok (), tx) ->
  ManualTrainingView.post batch_train data qt =
    (Ok (Success {| tb_iterations := 100; tb_supplier_count := None |}),
     if tx_needs_rollback tx then qt else tx_table tx).
Proof.
  intros Hi Hs Hb.
  unfold ManualTrainingView.post, atomic, ManualTrainingView.handler, data_get.
  rewrite Hi, Hs. cbn [from_option id py_int]. rewrite Hb. reflexivity.
Qed.

(** Without a supplier to sample, every iteration fails and the batch
    leaves the transaction as it is. *)
Lemma train_loop_no_supplier (alpha gamma epsilon : Q)
    (calculate_combined_metrics : value -> result Metrics)
    (get_state_from_metrics : Metrics -> result QLearningState)
    (get_actions : QLearningState -> result (list QLearningAction))
    (get_reward : value -> QLearningState -> QLearningAction -> result Q)
    (next_state : value -> QLearningAction -> result QLearningState)
    (rng : nat -> Draw) (n i : nat) (tx : Transaction) :
  Agent.train_loop alpha gamma epsilon calculate_combined_metrics
    get_state_from_metrics get_actions get_reward next_state rng [] i n tx = tx.
Proof.
  revert i. induction n as [|n IH]; intros i; [reflexivity|].
  cbn [Agent.train_loop]. unfold Agent.train_step, Agent.train_iteration.
  cbn [length lookup list_lookup]. rewrite Nat.Div0.mod_0_l || idtac.
  destruct tx as [qt [|]]; cbn; apply IH.
Qed.

Lemma training_defaults_witness :
  ManualTrainingView.post (Sample2.batch_train Sample.no_draw) ∅ Sample.qt1 =
    (Ok (Success {| tb_iterations := 100; tb_supplier_count := None |}), Sample.qt1).
Proof.
  assert (H : Sample2.batch_train Sample.no_draw 100 VNone
                (begin_transaction Sample.qt1) =
              (Ok (), begin_transaction Sample.qt1)).
  { unfold Sample2.batch_train, Agent.batch_train, Agent.supplier_pool. cbn [truthy].
    rewrite train_loop_no_supplier. reflexivity. }
  exact (training_defaults (Sample2.batch_train Sample.no_draw) ∅ Sample.qt1
           (begin_transaction Sample.qt1) eq_refl eq_refl H).
Defined.

(** ** QValueView *)

Section q_values_more.
Variable calculate_combined_metrics : value -> result Metrics.
Variable get_state_from_metrics : Metrics -> result QLearningState.
Variable get_actions : QLearningState -> result (list QLearningAction).
Variable get_supplier : value -> result value.

Local Abbreviation get :=
  (QValueView.get calculate_combined_metrics get_state_from_metrics get_actions
     get_supplier).

(** X16: a successful answer of the inspection endpoint is about the state
    of the supplier's current metrics: it has one row per candidate action
    of that state, in the order of the environment, and each row carries the
    value and the count stored under the reported state name and the row's
    action name, (0.0, 0) when nothing is stored. *)
Theorem q_values_rows (supplier_id : option string) (qt : QTable) (body : QValueBody) :
  get supplier_id qt = Success body ->
  exists metrics state actions,
    calculate_combined_metrics (VStr (default "" supplier_id)) = Ok metrics /\
    get_state_from_metrics metrics = Ok state /\
    get_actions state = Ok actions /\
    qb_metrics body = metrics /\
    qb_state body = state_name state /\
    map qv_action (qb_q_values body) = map action_name actions /\
    Forall (fun row =>
              (qv_q_value row, qv_update_count row) =
                stored_pair qt (qb_state body, qv_action row))
           (qb_q_values body).
Proof.
  unfold QValueView.get.
  destruct (negb (param_truthy supplier_id)); [discriminate|].
  destruct (calculate_combined_metrics _) as [metrics|] eqn:Hm; [|discriminate].
  cbn [mbind result_bind rbind].
  destruct (get_state_from_metrics metrics) as [state|] eqn:Hs; [|discriminate].
  cbn [mbind result_bind rbind].
  destruct (get_actions state) as [actions|] eqn:Ha; [|discriminate].
  cbn [mbind result_bind rbind].
  destruct (get_supplier _) as [supplier|]; [|discriminate].
  cbn [mbind result_bind rbind].
  destruct (company_name_if_found _ _) as [name|]; [|discriminate].
  cbn [mbind result_bind rbind]. intros [= <-].
  exists metrics, state, actions. cbn [qb_metrics qb_state qb_q_values].
  split; [reflexivity|]. split; [exact Hs|]. split; [exact Ha|].
  split; [reflexivity|]. split; [reflexivity|]. split.
  - rewrite List.map_map. apply List.map_ext. intros a. unfold q_value_row.
    destruct (qt !! qkey state a); reflexivity.
  - apply List.Forall_forall. intros row Hin. apply in_map_iff in Hin as (a & <- & _).
    unfold q_value_row, stored_pair, qkey.
    destruct (qt !! (state_name state, action_name a)) eqn:E;
      cbn [qv_action qv_q_value qv_update_count]; rewrite E; reflexivity.
Qed.
End q_values_more.

Lemma q_values_rows_witness :
  exists body,
    QValueView.get Sample.calculate_combined_metrics Sample.get_state_from_metrics
      Sample.get_actions Sample.get_supplier (Some "3") Sample.qt1 = Success body /\
    map qv_action (qb_q_values body) = ["HOLD"; "RANK_TIER_1"; "RANK_TIER_2"] /\
    Forall (fun row =>
              (qv_q_value row, qv_update_count row) =
                stored_pair Sample.qt1 (qb_state body, qv_action row))
           (qb_q_values body).
Proof.
  eexists.
  assert (H : QValueView.get Sample.calculate_combined_metrics
                Sample.get_state_from_metrics Sample.get_actions Sample.get_supplier
                (Some "3") Sample.qt1 = Success _) by (vm_compute; reflexivity).
  split; [exact H|]. split; [reflexivity|].
  destruct (q_values_rows Sample.calculate_combined_metrics Sample.get_state_from_metrics
              Sample.get_actions Sample.get_supplier (Some "3") Sample.qt1 _ H)
    as (metrics & state & actions & _ & _ & _ & _ & _ & _ & Hrows).
  exact Hrows.
Defined.

(** ** QTableView *)

(** X17: an export never lists a (state, action) pair twice. *)
Theorem export_no_duplicates (state action min_q_value limit : option string)
    (qt : QTable) (body : QTableBody) :
  QTableView.get state action min_q_value limit qt = Success body ->
  List.NoDup (map row_key (qtb_entries body)).
Proof.
  intros Hget.
  destruct (qtable_get_success _ _ _ _ _ _ Hget) as (n & m & _ & _ & _ & ->).
  cbn [qtb_entries].
  apply (NoDup_map_sublist _ _ _ (sublist_take _ _)).
  apply (Permutation_NoDup (Permutation_map row_key
                              (Permutation_sym (sort_desc_perm qr_q_value _)))).
  apply (NoDup_map_sublist _ _ _ (filter_sublist _ _)). apply all_rows_keys.
Qed.

(** X18: the cut keeps the largest values: a stored entry that passes the
    filters and is not in the export has a q_value that is at most the
    q_value of every exported row. *)
Theorem export_keeps_largest (state action min_q_value limit : option string)
    (qt : QTable) (body : QTableBody) (m : option pyfloat) (r r' : QTableRow) :
  QTableView.get state action min_q_value limit qt = Success body ->
  export_min_q min_q_value = Ok m ->
  In r (qtb_entries body) ->
  In r' (all_rows qt) ->
  passes_filters state action m r' = true ->
  ~ In r' (qtb_entries body) ->
  (qr_q_value r' <= qr_q_value r)%Q.
Proof.
  intros Hget Hm Hr Hr' Hp Hnot.
  destruct (qtable_get_success _ _ _ _ _ _ Hget) as (n & m' & _ & _ & Hm' & ->).
  rewrite Hm in Hm'. injection Hm' as <-. cbn [qtb_entries] in *.
  set (sorted := sort_desc qr_q_value
                   (List.filter (passes_filters state action m) (all_rows qt))) in *.
  assert (Hin : In r' sorted).
  { apply sort_desc_In. apply filter_In. split; assumption. }
  rewrite <- (take_drop (Z.to_nat n) sorted) in Hin.
  apply in_app_or in Hin as [Hin | Hin]; [contradiction|].
  pose proof (sort_desc_sorted qr_q_value
                (List.filter (passes_filters state action m) (all_rows qt))) as Hs.
  fold sorted in Hs. rewrite <- (take_drop (Z.to_nat n) sorted) in Hs.
  exact (strongly_sorted_app_elems _ _ _ Hs r r' Hr Hin).
Qed.

(** X19: with a limit that is at least the number of stored entries, the
    export is complete: a row is exported exactly when it is a stored entry
    that passes the filters. *)
Theorem export_complete (state action min_q_value limit : option string)
    (qt : QTable) (body : QTableBody) (n : Z) (m : option pyfloat) (r : QTableRow) :
  QTableView.get state action min_q_value limit qt = Success body ->
  export_limit limit = Ok n ->
  export_min_q min_q_value = Ok m ->
  (size qt <= Z.to_nat n)%nat ->
  In r (qtb_entries body) <->
  In r (all_rows qt) /\ passes_filters state action m r = true.
Proof.
  intros Hget Hn Hm Hsize.
  destruct (qtable_get_success _ _ _ _ _ _ Hget) as (n' & m' & Hn' & _ & Hm' & ->).
  rewrite Hn in Hn'. injection Hn' as <-. rewrite Hm in Hm'. injection Hm' as <-.
  cbn [qtb_entries]. rewrite take_ge.
  - rewrite sort_desc_In. apply filter_In.
  - rewrite sort_desc_length.
    pose proof (sublist_length _ _ (filter_sublist (passes_filters state action m)
                                      (all_rows qt))) as Hlen.
    rewrite all_rows_length in Hlen. lia.
Qed.

(** X20: exports that differ only in their limit agree: the q_values of
    the export with the smaller limit are the first q_values of the export
    with the larger one. *)
Theorem export_prefix (state action min_q_value limit1 limit2 : option string)
    (qt : QTable) (body1 body2 : QTableBody) (n1 n2 : Z) :
  QTableView.get state action min_q_value limit1 qt = Success body1 ->
  QTableView.get state action min_q_value limit2 qt = Success body2 ->
  export_limit limit1 = Ok n1 ->
  export_limit limit2 = Ok n2 ->
  n1 <= n2 ->
  map qr_q_value (qtb_entries body1) =
    take (Z.to_nat n1) (map qr_q_value (qtb_entries body2)).
Proof.
  intros H1 H2 Hn1 Hn2 Hle.
  destruct (qtable_get_success _ _ _ _ _ _ H1) as (n1' & m1 & Hn1' & _ & Hm1 & ->).
  destruct (qtable_get_success _ _ _ _ _ _ H2) as (n2' & m2 & Hn2' & _ & Hm2 & ->).
  rewrite Hn1 in Hn1'. injection Hn1' as <-. rewrite Hn2 in Hn2'. injection Hn2' as <-.
  rewrite Hm1 in Hm2. injection Hm2 as <-.
  cbn [qtb_entries]. rewrite <- !fmap_map, <- fmap_take, take_take.
  replace (Z.to_nat n1 `min` Z.to_nat n2)%nat with (Z.to_nat n1) by lia. reflexivity.
Qed.

(** X21: the count of an export is the number of its rows and never
    exceeds the total number of stored entries it reports. *)
Theorem export_count_le_total (state action min_q_value limit : option string)
    (qt : QTable) (body : QTableBody) :
  QTableView.get state action min_q_value limit qt = Success body ->
  qtb_count body = length (qtb_entries body) /\
  (qtb_count body <= qtb_total_entries body)%nat.
Proof.
  intros Hget.
  destruct (qtable_get_success _ _ _ _ _ _ Hget) as (n & m & _ & _ & _ & ->).
  cbn [qtb_entries qtb_count qtb_total_entries]. split; [reflexivity|].
  pose proof (sublist_length _ _ (sublist_take
                (sort_desc qr_q_value
                   (List.filter (passes_filters state action m) (all_rows qt)))
                (Z.to_nat n))) as H1.
  rewrite sort_desc_length in H1.
  pose proof (sublist_length _ _ (filter_sublist (passes_filters state action m)
                                    (all_rows qt))) as H2.
  rewrite all_rows_length in H2. lia.
Qed.

(** X22: an empty [state], [action] or [min_q_value] parameter is ignored
    like an absent one, whereas an empty [limit] is not read as absent: the
    export fails with status 500. *)
Theorem export_empty_parameters (state action min_q_value limit : option string)
    (qt : QTable) :
  QTableView.get state action min_q_value limit qt =
    QTableView.get (if param_truthy state then state else None)
      (if param_truthy action then action else None)
      (if param_truthy min_q_value then min_q_value else None) limit qt /\
  QTableView.get state action min_q_value (Some "") qt =
    Failure HTTP_500_INTERNAL_SERVER_ERROR (QTableFailed ValueError).
Proof.
  split; [|reflexivity].
  assert (Hname : forall p name,
            name_filter (if param_truthy p then p else None) name = name_filter p name).
  { intros p name. unfold name_filter. destruct (param_truthy p) eqn:E;
      [rewrite E|]; reflexivity. }
  assert (Hmin : export_min_q (if param_truthy min_q_value then min_q_value else None)
                 = export_min_q min_q_value).
  { unfold export_min_q. destruct (param_truthy min_q_value) eqn:E;
      [rewrite E|]; reflexivity. }
  unfold QTableView.get. rewrite Hmin.
  destruct (export_limit limit) as [n|]; [|reflexivity].
  cbn [mbind result_bind rbind].
  destruct (export_min_q min_q_value) as [m|]; [|reflexivity].
  cbn [mbind result_bind rbind].
  rewrite !filter_filter_filter.
  rewrite (List.filter_ext
             (fun r => name_filter (if param_truthy state then state else None) (qr_state r)
                       && name_filter (if param_truthy action then action else None)
                            (qr_action r)
                       && min_q_filter m (qr_q_value r))
             (fun r => name_filter state (qr_state r) && name_filter action (qr_action r)
                       && min_q_filter m (qr_q_value r)))
    by (intros r; rewrite !Hname; reflexivity).
  reflexivity.
Qed.

Lemma export_no_duplicates_witness :
  List.NoDup
    (map row_key
       [ {| qr_state := "HIGH"; qr_action := "RANK_TIER_2"; qr_q_value := 6;
            qr_update_count := 1 |};
         {| qr_state := "HIGH"; qr_action := "RANK_TIER_1"; qr_q_value := 5;
            qr_update_count := 3 |} ]).
Proof.
  assert (H : QTableView.get None (Some "RANK") None (Some "2") Sample.qt1 =
              Success {| qtb_entries :=
                           [ {| qr_state := "HIGH"; qr_action := "RANK_TIER_2";
                                qr_q_value := 6; qr_update_count := 1 |};
                             {| qr_state := "HIGH"; qr_action := "RANK_TIER_1";
                                qr_q_value := 5; qr_update_count := 3 |} ];
                         qtb_count := 2; qtb_total_entries := 3 |})
    by (vm_compute; reflexivity).
  exact (export_no_duplicates None (Some "RANK") None (Some "2") Sample.qt1 _ H).
Defined.

Lemma export_keeps_largest_witness :
  (5 <= 6)%Q.
Proof.
  assert (H : QTableView.get None (Some "RANK") None (Some "1") Sample.qt1 =
              Success {| qtb_entries :=
                           [ {| qr_state := "HIGH"; qr_action := "RANK_TIER_2";
                                qr_q_value := 6; qr_update_count := 1 |} ];
                         qtb_count := 1; qtb_total_entries := 3 |})
    by (vm_compute; reflexivity).
  assert (Hin : In {| qr_state := "HIGH"; qr_action := "RANK_TIER_1"; qr_q_value := 5;
                      qr_update_count := 3 |} (all_rows Sample.qt1))
    by (apply (proj2 (all_rows_stored Sample.qt1 _)); vm_compute; reflexivity).
  refine (export_keeps_largest None (Some "RANK") None (Some "1") Sample.qt1 _ None
            {| qr_state := "HIGH"; qr_action := "RANK_TIER_2"; qr_q_value := 6;
               qr_update_count := 1 |}
            {| qr_state := "HIGH"; qr_action := "RANK_TIER_1"; qr_q_value := 5;
               qr_update_count := 3 |}
            H eq_refl _ Hin _ _).
  - left. reflexivity.
  - vm_compute. reflexivity.
  - intros [Heq | []]. discriminate Heq.
Defined.

Lemma export_complete_witness :
  In {| qr_state := "LOW"; qr_action := "HOLD"; qr_q_value := 0; qr_update_count := 2 |}
     [ {| qr_state := "HIGH"; qr_action := "RANK_TIER_2"; qr_q_value := 6;
          qr_update_count := 1 |};
       {| qr_state := "HIGH"; qr_action := "RANK_TIER_1"; qr_q_value := 5;
          qr_update_count := 3 |};
       {| qr_state := "LOW"; qr_action := "HOLD"; qr_q_value := 0;
          qr_update_count := 2 |} ] <->
  In {| qr_state := "LOW"; qr_action := "HOLD"; qr_q_value := 0; qr_update_count := 2 |}
     (all_rows Sample.qt1) /\
  passes_filters None None None
    {| qr_state := "LOW"; qr_action := "HOLD"; qr_q_value := 0; qr_update_count := 2 |}
    = true.
Proof.
  assert (H : QTableView.get None None None None Sample.qt1 =
              Success {| qtb_entries :=
                           [ {| qr_state := "HIGH"; qr_action := "RANK_TIER_2";
                                qr_q_value := 6; qr_update_count := 1 |};
                             {| qr_state := "HIGH"; qr_action := "RANK_TIER_1";
                                qr_q_value := 5; qr_update_count := 3 |};
                             {| qr_state := "LOW"; qr_action := "HOLD";
                                qr_q_value := 0; qr_update_count := 2 |} ];
                         qtb_count := 3; qtb_total_entries := 3 |})
    by (vm_compute; reflexivity).
  assert (Hsize : (size Sample.qt1 <= Z.to_nat 100)%nat) by (vm_compute; lia).
  exact (export_complete None None None None Sample.qt1 _ 100 None _ H eq_refl eq_refl
           Hsize).
Defined.

Lemma export_prefix_witness :
  map qr_q_value
    [ {| qr_state := "HIGH"; qr_action := "RANK_TIER_2"; qr_q_value := 6;
         qr_update_count := 1 |} ] =
  take (Z.to_nat 1)
    (map qr_q_value
       [ {| qr_state := "HIGH"; qr_action := "RANK_TIER_2"; qr_q_value := 6;
            qr_update_count := 1 |};
         {| qr_state := "HIGH"; qr_action := "RANK_TIER_1"; qr_q_value := 5;
            qr_update_count := 3 |} ]).
Proof.
  assert (H1 : QTableView.get None (Some "RANK") None (Some "1") Sample.qt1 =
               Success {| qtb_entries :=
                            [ {| qr_state := "HIGH"; qr_action := "RANK_TIER_2";
                                 qr_q_value := 6; qr_update_count := 1 |} ];
                          qtb_count := 1; qtb_total_entries := 3 |})
    by (vm_compute; reflexivity).
  assert (H2 : QTableView.get None (Some "RANK") None (Some "2") Sample.qt1 =
               Success {| qtb_entries :=
                            [ {| qr_state := "HIGH"; qr_action := "RANK_TIER_2";
                                 qr_q_value := 6; qr_update_count := 1 |};
                              {| qr_state := "HIGH"; qr_action := "RANK_TIER_1";
                                 qr_q_value := 5; qr_update_count := 3 |} ];
                          qtb_count := 2; qtb_total_entries := 3 |})
    by (vm_compute; reflexivity).
  exact (export_prefix None (Some "RANK") None (Some "1") (Some "2") Sample.qt1 _ _ 1 2
           H1 H2 eq_refl eq_refl ltac:(lia)).
Defined.

Lemma export_count_le_total_witness :
  (1 = length [ {| qr_state := "HIGH"; qr_action := "RANK_TIER_2"; qr_q_value := 6%Q;
                   qr_update_count := 1 |} ])%nat /\
  (1 <= 3)%nat.
Proof.
  assert (H : QTableView.get None (Some "RANK") (Some "5.5") None Sample.qt1 =
              Success {| qtb_entries :=
                           [ {| qr_state := "HIGH"; qr_action := "RANK_TIER_2";
                                qr_q_value := 6; qr_update_count := 1 |} ];
                         qtb_count := 1; qtb_total_entries := 3 |})
    by (vm_compute; reflexivity).
  exact (export_count_le_total None (Some "RANK") (Some "5.5") None Sample.qt1 _ H).
Defined.
